(** * Portfolio tracker: ledger, metrics and encrypted persistence

    A shallow embedding of [models.py], [computations.py], [portt_main.py]
    and [passencrypt.py], and the properties of the ledger, the metrics
    engine and the persistence layer stated over it.

    Conventions of the embedding.
    - Python numbers (ints and finite floats) are rationals [Q]; [==] on
      numbers is [Qeq_bool], [<=] is [Qle_bool].  Rounding and infinities
      are outside the model; NaN is modelled where the code itself
      produces it, in the value of [volatility].  True division by zero
      raises [ZeroDivisionError], as in Python.
    - Strings are strings of ASCII characters: [upper], [lower] and
      [strip] are [str.upper], [str.lower] and [str.strip] on those.
    - A dict with a fixed set of keys (an asset, a transaction) is a record;
      a key that may be missing is an [option] field.
    - A list mutated in place through a reference to one of its elements is
      a list updated at the index of that element.
    - A function that may raise returns an [outcome] next to the state it
      leaves behind. *)

From Stdlib Require Import QArith String Ascii List Lia Sorted.
From stdpp Require Import base option list gmap strings.

Local Open Scope string_scope.

(** ** Python values shared by all modules *)

Module Py.

(** Exceptions that the modelled functions raise. *)
Inductive exn : Type :=
| ZeroDivisionError
| ValueError
| TypeError
| AttributeError
| IndexError
| InvalidToken.

(** The result of a call: a returned value or a raised exception. *)
Inductive outcome (A : Type) : Type :=
| Returned (a : A)
| Raised (e : exn).
Arguments Returned {A} a.
Arguments Raised {A} e.

(** The values that [json] reads and writes; [JNull] is [None]. *)
#[local] Set Warnings "-register-all".
Inductive json : Type :=
| JNull
| JBool (b : bool)
| JNum (q : Q)
| JStr (s : string)
| JList (l : list json)
| JDict (d : list (string * json)).

#[local] Set Warnings "+register-all".

(** A float where the code can meet NaN: a number, or NaN, with which
    every comparison is false. *)
Inductive float : Type :=
| Num (q : Q)
| NaN.

(** [x > y] for a float [x] and a number [y]. *)
Definition float_gt (x : float) (y : Q) : bool :=
  match x with
  | Num q => negb (Qle_bool q y)
  | NaN => false
  end.

(** [a / b] on numbers. *)
Definition truediv (a b : Q) : option Q :=
  if Qeq_bool b 0 then None else Some (a / b)%Q.

(** The strings of ASCII characters. *)
Definition is_ascii (s : string) : bool :=
  forallb (fun c => (nat_of_ascii c <? 128)%nat) (list_ascii_of_string s).

(** [str.upper] and [str.lower], on strings of ASCII characters. *)
Definition upper_ascii (c : ascii) : ascii :=
  let n := nat_of_ascii c in
  if ((97 <=? n) && (n <=? 122))%nat then ascii_of_nat (n - 32) else c.

Definition lower_ascii (c : ascii) : ascii :=
  let n := nat_of_ascii c in
  if ((65 <=? n) && (n <=? 90))%nat then ascii_of_nat (n + 32) else c.

Fixpoint upper (s : string) : string :=
  match s with
  | EmptyString => EmptyString
  | String c s' => String (upper_ascii c) (upper s')
  end.

Fixpoint lower (s : string) : string :=
  match s with
  | EmptyString => EmptyString
  | String c s' => String (lower_ascii c) (lower s')
  end.

(** The white space that [str.strip] removes from a string of ASCII
    characters. *)
Definition is_space (c : ascii) : bool :=
  let n := nat_of_ascii c in
  ((n =? 32) || ((9 <=? n) && (n <=? 13)) || ((28 <=? n) && (n <=? 31)))%nat.

Fixpoint lstrip (s : string) : string :=
  match s with
  | EmptyString => EmptyString
  | String c s' => if is_space c then lstrip s' else s
  end.

Fixpoint rstrip (s : string) : string :=
  match s with
  | EmptyString => EmptyString
  | String c s' =>
      match rstrip s' with
      | EmptyString => if is_space c then EmptyString else String c EmptyString
      | r => String c r
      end
  end.

Definition strip (s : string) : string := rstrip (lstrip s).

(** [l.remove(x)]: delete the first element equal to [x]; [ValueError]
    when there is none. *)
Fixpoint list_remove {A : Type} (eqb : A -> A -> bool) (x : A) (l : list A)
  : option (list A) :=
  match l with
  | [] => None
  | y :: l' =>
      if eqb y x then Some l'
      else match list_remove eqb x l' with
           | Some r => Some (y :: r)
           | None => None
           end
  end.

(** A dict with string keys whose insertion order matters, and [d.get(k)]. *)
Definition dict (V : Type) : Type := list (string * V).

Fixpoint dict_get {V : Type} (k : string) (d : dict V) : option V :=
  match d with
  | [] => None
  | (k', v) :: d' => if String.eqb k' k then Some v else dict_get k d'
  end.

(** [d[k] = v]: the value of a key that is there is replaced in place, a
    new key goes to the end. *)
Fixpoint dict_set {V : Type} (k : string) (v : V) (d : dict V) : dict V :=
  match d with
  | [] => [(k, v)]
  | (k', v') :: d' =>
      if String.eqb k' k then (k, v) :: d' else (k', v') :: dict_set k v d'
  end.

(** [sorted(l, key=key, reverse=True)]: a stable sort in descending order
    of the key; elements with equal keys keep their input order. *)
Fixpoint insert_desc {A : Type} (key : A -> Q) (x : A) (l : list A) : list A :=
  match l with
  | [] => [x]
  | y :: l' =>
      if Qle_bool (key y) (key x) then x :: y :: l'
      else y :: insert_desc key x l'
  end.

Definition sorted_desc {A : Type} (key : A -> Q) (l : list A) : list A :=
  foldr (insert_desc key) [] l.

(** [sorted(l, key=key)]: stable, ascending. *)
Fixpoint insert_asc {A : Type} (key : A -> Q) (x : A) (l : list A) : list A :=
  match l with
  | [] => [x]
  | y :: l' =>
      if Qle_bool (key x) (key y) then x :: y :: l'
      else y :: insert_asc key x l'
  end.

Definition sorted_asc {A : Type} (key : A -> Q) (l : list A) : list A :=
  foldr (insert_asc key) [] l.

End Py.

Import Py.

(** ** models.py *)

Module Models.

(** An element of [portfolio]. The key ["status"] is absent until
    [recalculate_portfolio] writes it. *)
Record asset : Type := Asset {
  ticker : string;
  quantity : Q;
  buy_price : Q;
  current_price : Q;
  risk : string;
  status : option string
}.

(** An element of [transactions]; [tx_type] is the key ["type"]. *)
Record transaction : Type := Transaction {
  tx_date : string;
  tx_ticker : string;
  tx_type : string;
  tx_quantity : Q;
  tx_price : Q
}.

Definition TICKER_MAPPING : gmap string string :=
  list_to_map
    [("BTC", "BTC-USD"); ("ETH", "ETH-USD"); ("XRP", "XRP-USD");
     ("LTC", "LTC-USD"); ("ADA", "ADA-USD"); ("SOL", "SOL-USD");
     ("DOGE", "DOGE-USD"); ("SHIB", "SHIB-USD")].

Definition RISK_WEIGHT : gmap string Q :=
  list_to_map [("LOW", 1%Q); ("OPTIMAL", 2%Q); ("HIGH", 3%Q)].

(** [normalize_ticker(ticker)], for a ticker of ASCII characters. *)
Definition normalize_ticker (t : string) : string :=
  let t' := strip (upper t) in
  default t' (TICKER_MAPPING !! t').

(** [==] on two assets: dict equality, key by key. *)
Definition option_string_eqb (a b : option string) : bool :=
  match a, b with
  | Some x, Some y => String.eqb x y
  | None, None => true
  | _, _ => false
  end.

Definition asset_eqb (a b : asset) : bool :=
  String.eqb (ticker a) (ticker b)
  && Qeq_bool (quantity a) (quantity b)
  && Qeq_bool (buy_price a) (buy_price b)
  && Qeq_bool (current_price a) (current_price b)
  && String.eqb (risk a) (risk b)
  && option_string_eqb (status a) (status b).

(** In-place writes to one key of an asset. *)
Definition set_quantity (q : Q) (a : asset) : asset :=
  Asset (ticker a) q (buy_price a) (current_price a) (risk a) (status a).
Definition set_buy_price (p : Q) (a : asset) : asset :=
  Asset (ticker a) (quantity a) p (current_price a) (risk a) (status a).
Definition set_status (s : string) (a : asset) : asset :=
  Asset (ticker a) (quantity a) (buy_price a) (current_price a) (risk a) (Some s).

(** The sample data the module starts with. *)
Definition portfolio0 : list asset :=
  [ Asset "AAPL" 10 150 170 "high" None;
    Asset "TSLA" 3 700 650 "high" None;
    Asset "BTC" 0.02 30000 45000 "high" None ].

Definition transactions0 : list transaction :=
  [ Transaction "2025-03-01" "AAPL" "buy" 5 145;
    Transaction "2025-03-10" "TSLA" "buy" 3 700 ].

Definition userdata0 : list (dict string) :=
  [ [("nick", "x"); ("password", "123"); ("Birthday", "14/09/2007");
     ("country", "Minnesota")];
    [("layout", "1"); ("order", "HtoLrisk or LtoHrisk")] ].

End Models.

Import Models.

(** ** computations.py *)

Module Computations.

Local Open Scope Q_scope.

Definition percent_return (item : asset) : Q :=
  if Qeq_bool (buy_price item) 0 then 0
  else (current_price item - buy_price item) / buy_price item * 100.

Definition market_value (item : asset) : Q :=
  quantity item * current_price item.

Definition unrealized_pl (item : asset) : Q :=
  (current_price item - buy_price item) * quantity item.

(** The thresholds of [classify_risk], applied to the value that
    [volatility] returned ([None] is Python's [None]).  Both tests are
    false of NaN, which falls through to ["LOW"]. *)
Definition classify_vol (vol : option float) : string :=
  match vol with
  | None => "UNKNOWN"
  | Some v =>
      if float_gt v 0.45 then "HIGH"
      else if float_gt v 0.20 then "OPTIMAL"
      else "LOW"
  end.

(** A reference to an element of the list passed to
    [recalculate_portfolio]: its index.  The sorted views hold references
    to the very dicts of that list. *)
Definition ref : Type := nat.

Record metrics : Type := Metrics {
  total_value : Q;
  sorted_by_return : list ref;
  sorted_by_risk : list ref;
  sorted_by_pnl : list ref;
  top_3_best : list ref;
  (** [ticker], [buy_price], [current_price]; the two prices are kept as
      numbers, their rendering with two decimals is display only. *)
  best_ass : list (string * Q * Q);
  worst : option ref;
  worst_ass : option (string * Q * Q);
  unrealised_pnl : list (string * Q)
}.

(** The status written by the last loop of [recalculate_portfolio]. *)
Definition assign_status (a : asset) : asset :=
  if negb (Qle_bool (percent_return a) 0) then set_status "profit" a
  else set_status "loss" a.

Section Gateway.

(** The market data gateway.  [yf_history t days] is the column of
    closes of [yf.Ticker(t).history(period=f"{days}d")], oldest first;
    [None] stands for any exception raised inside the [try] block of
    [volatility].  [annualized_std closes] is what pandas computes for
    [closes.pct_change().dropna().std() * 252 ** 0.5] from three closes
    or more: a number, or NaN. *)
Variable yf_history : string -> nat -> option (list Q).
Variable annualized_std : list Q -> float.

(** [returns.std() * (252 ** 0.5)] for the returns of [closes], which
    has two closes at least.  Two closes give one return, [std] is the
    sample standard deviation, which divides by the number of returns
    less one, and pandas answers NaN for a single one. *)
Definition returns_std (closes : list Q) : float :=
  if (length closes <=? 2)%nat then NaN else annualized_std closes.

Definition volatility (t : string) (days : nat) : option float :=
  let t' := normalize_ticker t in
  match yf_history t' days with
  | None => None
  | Some data =>
      if (length data <? 2)%nat then None
      else Some (returns_std data)
  end.

Definition classify_risk (item : asset) : string :=
  classify_vol (volatility (ticker item) 60).

Definition risk_score (item : asset) : Q :=
  default 2 (RISK_WEIGHT !! classify_risk item).

(** The key of a reference, for [sorted]. *)
Definition key_of (l : list asset) (key : asset -> Q) (r : ref) : Q :=
  match l !! r with
  | Some a => key a
  | None => 0
  end.

Definition summary (l : list asset) (r : ref) : option (string * Q * Q) :=
  match l !! r with
  | Some a => Some (ticker a, buy_price a, current_price a)
  | None => None
  end.

(** [recalculate_portfolio(portfolio_list, preferences)]: the returned
    dict and the list as the call leaves it. *)
Definition recalculate_portfolio
    (portfolio_list : list asset) (preferences : option (dict string))
  : metrics * list asset :=
  let preferences :=
    match preferences with
    | Some p => p
    | None => [("order", "HtoLrisk")]
    end in
  let refs := seq 0 (length portfolio_list) in
  let total := fold_left Qplus (map market_value portfolio_list) 0 in
  let by_return := sorted_desc (key_of portfolio_list percent_return) refs in
  let by_pnl := sorted_desc (key_of portfolio_list unrealized_pl) refs in
  let by_risk :=
    if decide (dict_get "order" preferences = Some "HtoLrisk")
    then sorted_desc (key_of portfolio_list risk_score) refs
    else sorted_asc (key_of portfolio_list risk_score) refs in
  let top3 :=
    if (3 <=? length by_return)%nat then take 3 by_return else by_return in
  let best := omap (summary portfolio_list) top3 in
  let worst_ref := last by_return in
  let worst_row := worst_ref ≫= summary portfolio_list in
  let pnl :=
    omap (fun r => (fun a => (ticker a, unrealized_pl a)) <$> portfolio_list !! r)
         by_pnl in
  (Metrics total by_return by_risk by_pnl top3 best worst_ref worst_row pnl,
   map assign_status portfolio_list).

End Gateway.

End Computations.

Import Computations.


(** ** portt_main.py: the ledger *)

Module Main.

Local Open Scope Q_scope.

(** The module-level state: [portfolio], [transactions], [userdata] (whose
    second element is [preferences]) and [portfolio_metrics] ([None] for
    the empty dict it starts as). *)
Record app_state : Type := AppState {
  portfolio : list asset;
  transactions : list transaction;
  userdata : list (dict string);
  portfolio_metrics : option metrics
}.

(** [preferences = userdata[1]]. *)
Definition preferences (st : app_state) : dict string :=
  default [] (userdata st !! 1%nat).

(** What [ouinput] or [get_float] hands back at a prompt.  [Typed a] is
    the text or the number typed there.  [Home u] is the [None] that
    follows a global command: [ouinput] returns [None] after [/home]
    only, once [home_page()] has returned, and [home_page] assigns to
    [userdata[0]["nick"]] and [userdata[0]["password"]] and to nothing
    else, so [u] is [userdata] as it left it.  After [/menu] and [/exit]
    the call does not come back: [main_menu] loops until [exit()]. *)
Inductive answer (A : Type) : Type :=
| Typed (a : A)
| Home (u : list (dict string)).
Arguments Typed {A} a.
Arguments Home {A} u.

(** What the user answers at the prompts of [make_transaction], in
    order. *)
Record tx_inputs : Type := TxInputs {
  in_date : answer string;
  in_ticker : answer string;
  in_type : answer string;
  in_quantity : answer Q;
  in_price : answer Q;
  in_confirm : answer string
}.

(** The loop that looks for the asset of a ticker: the first match and its
    index. *)
Definition find_asset (tk : string) (pf : list asset) : option (nat * asset) :=
  list_find (fun a => ticker a = tk) pf.

(** The statements under [# Update portfolio] in [make_transaction]. *)
Definition update_portfolio (pf : list asset) (t : transaction)
  : list asset * outcome unit :=
  match find_asset (tx_ticker t) pf with
  | Some (i, existing_asset) =>
      if String.eqb (tx_type t) "buy" then
        let total_qty := quantity existing_asset + tx_quantity t in
        let total_cost :=
          quantity existing_asset * buy_price existing_asset
          + tx_quantity t * tx_price t in
        match truediv total_cost total_qty with
        | None => (pf, Raised ZeroDivisionError)
        | Some avg =>
            (<[i := set_quantity total_qty (set_buy_price avg existing_asset)]> pf,
             Returned tt)
        end
      else if String.eqb (tx_type t) "sell" then
        let sold := set_quantity (quantity existing_asset - tx_quantity t)
                                 existing_asset in
        let pf' := <[i := sold]> pf in
        if Qle_bool (quantity sold) 0 then
          match list_remove asset_eqb sold pf' with
          | Some pf'' => (pf'', Returned tt)
          | None => (pf', Raised ValueError)
          end
        else (pf', Returned tt)
      else (pf, Returned tt)
  | None =>
      ((pf ++ [Asset (tx_ticker t) (tx_quantity t) (tx_price t) (tx_price t)
                     "OPTIMAL" None])%list,
       Returned tt)
  end.

Section Gateway.

Variable yf_history : string -> nat -> option (list Q).
Variable annualized_std : list Q -> float.

Definition refresh_portfolio_metrics (st : app_state) : app_state :=
  let '(m, pf) :=
    recalculate_portfolio yf_history annualized_std
                          (portfolio st) (Some (preferences st)) in
  AppState pf (transactions st) (userdata st) (Some m).

(** [make_transaction] from the creation of [new_trans] on, that is once
    the user has confirmed. *)
Definition record_transaction (st : app_state) (new_trans : transaction)
  : app_state * outcome bool :=
  let st1 := AppState (portfolio st) (transactions st ++ [new_trans])%list
                      (userdata st) (portfolio_metrics st) in
  match update_portfolio (portfolio st1) new_trans with
  | (pf, Returned _) =>
      (refresh_portfolio_metrics
         (AppState pf (transactions st1) (userdata st1) (portfolio_metrics st1)),
       Returned true)
  | (pf, Raised e) =>
      (AppState pf (transactions st1) (userdata st1) (portfolio_metrics st1),
       Raised e)
  end.

(** The state in which [ouinput] returned [None]. *)
Definition after_home (st : app_state) (u : list (dict string)) : app_state :=
  AppState (portfolio st) (transactions st) u (portfolio_metrics st).

Definition make_transaction (st : app_state) (inp : tx_inputs)
  : app_state * outcome bool :=
  match in_date inp with
  | Home u => (after_home st u, Returned false)
  | Typed date =>
  match in_ticker inp with
  | Home u => (after_home st u, Returned false)
  | Typed ticker =>
  let ticker := upper ticker in
  match in_type inp with
  | Home u => (after_home st u, Returned false)
  | Typed trans_type =>
  let trans_type := lower trans_type in
  match in_quantity inp with
  | Home u => (after_home st u, Returned false)
  | Typed quantity =>
  match in_price inp with
  | Home u => (after_home st u, Returned false)
  | Typed price =>
  match in_confirm inp with
  | Home u => (after_home st u, Returned false)
  | Typed confirm =>
      if negb (String.eqb (lower confirm) "yes") then (st, Returned false)
      else record_transaction st (Transaction date ticker trans_type quantity price)
  end end end end end end.

End Gateway.

End Main.

Import Main.

(** ** passencrypt.py: the encrypted state file *)

Module Passencrypt.

Definition ENCRYPTED_STATE : string := "~/.portt_state.enc".

(** The files of the user: path to content. *)
Abbreviation files := (gmap string string).

Section Fernet.

(** The [cryptography] and [json] libraries.
    - [fernet_key_ok k]: [Fernet(k)] accepts the key (it raises
      [ValueError] otherwise).
    - [fernet_encrypt k n m]: the token [Fernet(k).encrypt(m)]; [n] stands
      for the timestamp and the random IV the library draws.
    - [fernet_decrypt k tok]: [Fernet(k).decrypt(tok)], [None] when it
      raises [InvalidToken].
    - [json_dumps v]: [json.dumps(v, ensure_ascii=False).encode("utf-8")].
    - [json_loads s]: [json.loads(s.decode("utf-8"))], [None] when either
      call raises (both exceptions are subclasses of [ValueError]). *)
Variable fernet_key_ok : string -> bool.
Variable fernet_encrypt : string -> nat -> string -> string.
Variable fernet_decrypt : string -> string -> option string.
Variable json_dumps : json -> string.
Variable json_loads : string -> option json.

(** [MASTER_KEY = ensure_master_key()], fixed when the module is loaded. *)
Variable MASTER_KEY : string.

Definition encrypt_state (obj : json) (key : string) (filename : string)
    (n : nat) (fs : files) : files * outcome unit :=
  if fernet_key_ok key then
    let plaintext := json_dumps obj in
    let token := fernet_encrypt key n plaintext in
    (<[filename := token]> fs, Returned tt)
  else (fs, Raised ValueError).

Definition decrypt_state (key : string) (filename : string) (fs : files)
  : outcome json :=
  match fs !! filename with
  | None => Returned JNull
  | Some token =>
      if fernet_key_ok key then
        match fernet_decrypt key token with
        | None => Raised InvalidToken
        | Some plaintext =>
            match json_loads plaintext with
            | None => Raised ValueError
            | Some v => Returned v
            end
        end
      else Raised ValueError
  end.

Definition save_state (obj : json) (filename : string) (n : nat) (fs : files)
  : files * outcome unit :=
  encrypt_state obj MASTER_KEY filename n fs.

Definition load_state (filename : string) (fs : files) : json :=
  match decrypt_state MASTER_KEY filename fs with
  | Returned v => v
  | Raised _ => JNull
  end.

End Fernet.

End Passencrypt.

(** ** portt_main.py: saving and loading the session *)

Module Session.

(** The encoding of the module-level lists as [json] values. *)
Definition asset_to_json (a : asset) : json :=
  JDict ([("ticker", JStr (ticker a)); ("quantity", JNum (quantity a));
          ("buy_price", JNum (buy_price a));
          ("current_price", JNum (current_price a));
          ("risk", JStr (risk a))]
         ++ match status a with
            | Some s => [("status", JStr s)]
            | None => []
            end)%list.

Definition transaction_to_json (t : transaction) : json :=
  JDict [("date", JStr (tx_date t)); ("ticker", JStr (tx_ticker t));
         ("type", JStr (tx_type t)); ("quantity", JNum (tx_quantity t));
         ("price", JNum (tx_price t))].

Definition strdict_to_json (d : dict string) : json :=
  JDict (map (fun kv => (fst kv, JStr (snd kv))) d).

(** The three module-level lists, as the values [json] sees. *)
Record globals : Type := Globals {
  g_portfolio : list json;
  g_transactions : list json;
  g_userdata : list json
}.

Definition globals_of (st : app_state) : globals :=
  Globals (map asset_to_json (portfolio st))
          (map transaction_to_json (transactions st))
          (map strdict_to_json (userdata st)).

(** [data] in [save_state_encrypted] and [save_state]. *)
Definition snapshot_data (g : globals) : json :=
  JDict [("portfolio", JList (g_portfolio g));
         ("transactions", JList (g_transactions g));
         ("userdata", JList (g_userdata g))].

(** The elements that [x[:] = v] stores in [x]: those that iterating over
    [v] yields; [TypeError] when [v] is not iterable. *)
Definition chars (s : string) : list json :=
  map (fun c => JStr (String c EmptyString)) (list_ascii_of_string s).

Definition iterate (v : json) : option (list json) :=
  match v with
  | JList l => Some l
  | JDict d => Some (map (fun kv => JStr (fst kv)) d)
  | JStr s => Some (chars s)
  | JNull | JBool _ | JNum _ => None
  end.

(** [loaded.get(k, x)]; [AttributeError] when [loaded] is not a dict. *)
Definition get_member (loaded : json) (k : string) (x : list json)
  : outcome json :=
  match loaded with
  | JDict d => Returned (default (JList x) (dict_get k d))
  | _ => Raised AttributeError
  end.

(** One statement [x[:] = loaded.get(k, x)]. *)
Definition assign_member (loaded : json) (k : string) (x : list json)
  : outcome (list json) :=
  match get_member loaded k x with
  | Raised e => Raised e
  | Returned v =>
      match iterate v with
      | Some l => Returned l
      | None => Raised TypeError
      end
  end.

(** The three assignments shared by [load_state] and by the encrypted load
    of the main block. *)
Definition merge_snapshot (g : globals) (loaded : json)
  : globals * outcome unit :=
  match assign_member loaded "portfolio" (g_portfolio g) with
  | Raised e => (g, Raised e)
  | Returned p =>
  match assign_member loaded "transactions" (g_transactions g) with
  | Raised e => (Globals p (g_transactions g) (g_userdata g), Raised e)
  | Returned t =>
  match assign_member loaded "userdata" (g_userdata g) with
  | Raised e => (Globals p t (g_userdata g), Raised e)
  | Returned u => (Globals p t u, Returned tt)
  end end end.

(** The truth value of [loaded] in [if loaded:]. *)
Definition truthy (v : json) : bool :=
  match v with
  | JNull => false
  | JBool b => b
  | JNum q => negb (Qeq_bool q 0)
  | JStr s => negb (String.eqb s "")
  | JList l => negb (Nat.eqb (length l) 0)
  | JDict d => negb (Nat.eqb (length d) 0)
  end.

(** The module-level names that a load assigns: the three lists,
    [creds], [preferences] and [portfolio_metrics]. *)
Record memory : Type := Memory {
  m_lists : globals;
  m_creds : json;
  m_preferences : json;
  m_metrics : option metrics
}.

Definition with_lists (m : memory) (g : globals) : memory :=
  Memory g (m_creds m) (m_preferences m) (m_metrics m).

Definition with_creds (m : memory) (c : json) : memory :=
  Memory (m_lists m) c (m_preferences m) (m_metrics m).

Definition with_preferences (m : memory) (p : json) : memory :=
  Memory (m_lists m) (m_creds m) p (m_metrics m).

(** The memory of a state that has its two dicts of user data. *)
Definition memory_of (st : app_state) : memory :=
  Memory (globals_of st)
         (default JNull (strdict_to_json <$> userdata st !! 0%nat))
         (default JNull (strdict_to_json <$> userdata st !! 1%nat))
         (portfolio_metrics st).

(** An element of [portfolio] read as an asset of the data model: a dict
    with a string under ["ticker"] and ["risk"], a number under
    ["quantity"], ["buy_price"] and ["current_price"], and a string under
    ["status"] if it has that key. *)
Definition asset_of_json (v : json) : option asset :=
  match v with
  | JDict d =>
      match dict_get "ticker" d, dict_get "quantity" d,
            dict_get "buy_price" d, dict_get "current_price" d,
            dict_get "risk" d with
      | Some (JStr t), Some (JNum q), Some (JNum b), Some (JNum c),
        Some (JStr r) =>
          match dict_get "status" d with
          | None => Some (Asset t q b c r None)
          | Some (JStr s) => Some (Asset t q b c r (Some s))
          | Some _ => None
          end
      | _, _, _, _, _ => None
      end
  | _ => None
  end.

(** [preferences] as [recalculate_portfolio] reads it.  [None] takes the
    default of the function; of a dict only the member ["order"] is read,
    and compared with a string, from which a value that is no string
    differs; anything else has no [get] and raises [AttributeError]. *)
Definition preferences_read (v : json) : outcome (option (dict string)) :=
  match v with
  | JNull => Returned None
  | JDict d =>
      Returned (Some (map (fun kv => (fst kv,
                                      match snd kv with
                                      | JStr s => s
                                      | _ => ""
                                      end)) d))
  | JBool _ | JNum _ | JStr _ | JList _ => Raised AttributeError
  end.

(** [asset["status"] = ...] on an element of [portfolio], with the status
    computed for it. *)
Definition write_status (v : json) (a : asset) : json :=
  match v, status a with
  | JDict d, Some s => JDict (dict_set "status" (JStr s) d)
  | _, _ => v
  end.

Section Gateway.

Variable yf_history : string -> nat -> option (list Q).
Variable annualized_std : list Q -> float.

(** [refresh_portfolio_metrics()] on the lists as a load left them.
    The result is [None] when an element of [portfolio] is not an asset
    of the data model: what the arithmetic of [recalculate_portfolio]
    does with such values is not modelled.  An exception is raised before
    any status is written. *)
Definition refresh_loaded (m : memory) : option (memory * outcome unit) :=
  match mapM asset_of_json (g_portfolio (m_lists m)) with
  | None => None
  | Some pf =>
      match preferences_read (m_preferences m) with
      | Raised e => Some (m, Raised e)
      | Returned prefs =>
          let '(metrics, pf') :=
            recalculate_portfolio yf_history annualized_std pf prefs in
          Some (Memory (Globals (zip_with write_status
                                          (g_portfolio (m_lists m)) pf')
                                (g_transactions (m_lists m))
                                (g_userdata (m_lists m)))
                       (m_creds m) (m_preferences m) (Some metrics),
                Returned tt)
      end
  end.

(** The statements that follow the three assignments, in [load_state] and
    in the main block alike: [creds = userdata[0]],
    [preferences = userdata[1]] and [refresh_portfolio_metrics()]. *)
Definition finish_load (m : memory) : option (memory * outcome unit) :=
  match g_userdata (m_lists m) !! 0%nat with
  | None => Some (m, Raised IndexError)
  | Some c =>
      let m := with_creds m c in
      match g_userdata (m_lists m) !! 1%nat with
      | None => Some (m, Raised IndexError)
      | Some p => refresh_loaded (with_preferences m p)
      end
  end.

(** [load_state()]: [plain] is the parsed content of [userdata.json],
    [None] when the file does not exist, which the function catches. *)
Definition load_state (m : memory) (plain : option json)
  : option (memory * outcome unit) :=
  match plain with
  | Some data =>
      match merge_snapshot (m_lists m) data with
      | (g, Raised e) => Some (with_lists m g, Raised e)
      | (g, Returned _) => finish_load (with_lists m g)
      end
  | None => Some (m, Returned tt)
  end.

(** The handler of the inner [try] of the main block: [load_state()],
    whose own exception the outer handler catches and prints. *)
Definition fall_back (m : memory) (plain : option json) : option memory :=
  fst <$> load_state m plain.

(** The load of the main block when [passencrypt] is present: [loaded] is
    what [load_encrypted_state()] returned.  Every exception raised inside
    the inner [try], by the encrypted branch or by the [load_state()] of
    its [else], goes to the handler. *)
Definition startup_load (m : memory) (loaded : json) (plain : option json)
  : option memory :=
  if truthy loaded then
    match merge_snapshot (m_lists m) loaded with
    | (g, Raised _) => fall_back (with_lists m g) plain
    | (g, Returned _) =>
        match finish_load (with_lists m g) with
        | None => None
        | Some (m', Returned _) => Some m'
        | Some (m', Raised _) => fall_back m' plain
        end
    end
  else
    match load_state m plain with
    | None => None
    | Some (m', Returned _) => Some m'
    | Some (m', Raised _) => fall_back m' plain
    end.

End Gateway.

End Session.

Import Session.

(** ** Vocabulary of the specification *)

Module Spec.

Local Open Scope Q_scope.




(** The invariant of the position collection. *)
Definition all_held (pf : list asset) : Prop :=
  Forall (fun a => 0 < quantity a) pf.

(** An asset before and after a call that wrote nothing but its status, and
    wrote it from the sign of the percent return. *)
Definition only_status_written (before after : asset) : Prop :=
  ticker after = ticker before
  /\ quantity after = quantity before
  /\ buy_price after = buy_price before
  /\ current_price after = current_price before
  /\ risk after = risk before
  /\ (0 < percent_return before /\ status after = Some "profit"
      \/ percent_return before <= 0 /\ status after = Some "loss").

(** The member names of a snapshot in the data model. *)
Definition data_model_members : list string :=
  ["positions"; "transactions"; "preferences"].

(** The names of the members of an object. *)
Definition member_names (v : json) : list string :=
  match v with
  | JDict d => map fst d
  | _ => []
  end.

End Spec.

Import Spec.

(** ** Instances used to run the model *)

(** A gateway that is down: every request fails. *)
Module Offline.

Definition yf_history : string -> nat -> option (list Q) := fun _ _ => None.
Definition annualized_std : list Q -> float := fun _ => Num 0.

End Offline.

(** A gateway that has two closes on record for AAPL and nothing else.
    The statistics of pandas are stood for by a constant above the upper
    threshold; two closes never reach them. *)
Module Thin.

Definition yf_history : string -> nat -> option (list Q) :=
  fun t _ => if String.eqb t "AAPL" then Some [170; 172]%Q else None.
Definition annualized_std : list Q -> float := fun _ => Num 0.5.

End Thin.

(** A one-character keyed cipher and a one-entry codec, enough to run
    [encrypt_state] and [decrypt_state]: a key is a single character, a
    token is the key followed by the plaintext. *)
Module Toy.

Definition key_ok (k : string) : bool :=
  match k with
  | String _ EmptyString => true
  | _ => false
  end.

Definition encrypt (k : string) (n : nat) (m : string) : string :=
  (k ++ m)%string.

Definition decrypt (k : string) (tok : string) : option string :=
  match k, tok with
  | String c EmptyString, String c' m =>
      if Ascii.eqb c c' then Some m else None
  | _, _ => None
  end.

Definition snapshot : json :=
  snapshot_data (globals_of (AppState portfolio0 transactions0 userdata0 None)).

Definition dumps (v : json) : string := "snapshot".

Definition loads (s : string) : option json :=
  if String.eqb s "snapshot" then Some snapshot else None.

End Toy.

(** States and transactions on which the properties are run. *)
Module Scenario.

Definition st0 : app_state := AppState portfolio0 transactions0 userdata0 None.

Definition aapl : asset := Asset "AAPL" 10 150 170 "high" None.
Definition st_aapl : app_state := AppState [aapl] [] userdata0 None.

Definition buy_more : transaction := Transaction "2025-04-01" "AAPL" "buy" 5 160.
Definition sell_part : transaction := Transaction "2025-04-02" "AAPL" "sell" 4 180.
Definition sell_all : transaction := Transaction "2025-04-03" "AAPL" "sell" 10 180.
Definition sell_too_much : transaction := Transaction "2025-04-05" "AAPL" "sell" 15 180.
Definition buy_negative : transaction := Transaction "2025-04-06" "AAPL" "buy" (-20) 100.
Definition hold_held : transaction := Transaction "2025-04-07" "AAPL" "hold" 2 100.
Definition hold_unheld : transaction := Transaction "2025-04-08" "MSFT" "hold" 2 100.


(** A stored state file that was not written with the key ["k"]. *)
Definition tampered : gmap string string :=
  {[ Passencrypt.ENCRYPTED_STATE := "Xsnapshot" ]}.

End Scenario.

(** ** portt_main.py: a session at the main menu *)

Module Menu.

Section Gateway.

Variable yf_history : string -> nat -> option (list Q).
Variable annualized_std : list Q -> float.

(** Choice 1 of the main menu taken once per transaction of [ts], each one
    entered and confirmed: the state that is left. *)
Definition record_all (st : app_state) (ts : list transaction) : app_state :=
  fold_left (fun s t => fst (record_transaction yf_history annualized_std s t))
            ts st.

End Gateway.

(** The quantity and the cost of a list of transactions. *)
Definition total_quantity (ts : list transaction) : Q :=
  fold_right (fun t acc => tx_quantity t + acc)%Q 0%Q ts.

Definition total_cost (ts : list transaction) : Q :=
  fold_right (fun t acc => tx_quantity t * tx_price t + acc)%Q 0%Q ts.

(** A buy of a positive quantity on the ticker [tk]. *)
Definition buy_of (tk : string) (t : transaction) : Prop :=
  tx_ticker t = tk /\ tx_type t = "buy" /\ (0 < tx_quantity t)%Q.

End Menu.

Import Menu.

(** ** computations.py: live prices and the portfolio claim *)

Module Quotes.

Section Gateway.

(** [yf_last_close t] is the last close of
    [yf.Ticker(t).history(period="1d")]: [None] when anything in the [try]
    block of [get_live_price] raises, [Some None] when the frame is empty.
    [round2 x] is [round(x, 2)]. *)
Variable yf_last_close : string -> option (option Q).
Variable round2 : Q -> Q.

Definition get_live_price (t : string) : option Q :=
  let t' := normalize_ticker t in
  match yf_last_close t' with
  | None => None
  | Some None => None
  | Some (Some price) => if Qle_bool price 0 then None else Some price
  end.

(** The body of the loop of [update_all_current_prices]. *)
Definition update_current_price (a : asset) : asset :=
  match get_live_price (ticker a) with
  | Some new_price =>
      Asset (ticker a) (quantity a) (buy_price a) (round2 new_price)
            (risk a) (status a)
  | None => a
  end.

Definition update_all_current_prices (portfolio_list : list asset) : list asset :=
  map update_current_price portfolio_list.

End Gateway.

(** The two counters of [get_portfolio_claim] after one venture. *)
Definition count_venture (portfolio_list : list asset) (counts : nat * nat)
    (venture : transaction) : nat * nat :=
  match find_asset (tx_ticker venture) portfolio_list with
  | Some (_, a) =>
      if String.eqb (upper (risk a)) "HIGH" then (S (fst counts), snd counts)
      else if String.eqb (upper (risk a)) "LOW" then (fst counts, S (snd counts))
      else counts
  | None => counts
  end.

Definition get_portfolio_claim (ventures : list transaction)
    (portfolio_list : list asset) : string :=
  let '(high_count, low_count) :=
    fold_left (count_venture portfolio_list) ventures (0%nat, 0%nat) in
  if (low_count <? high_count)%nat then "daring"
  else if (high_count <? low_count)%nat then "conservative"
  else "balanced".

End Quotes.

Import Quotes.

(** More transactions to run the ledger on. *)
Module Scenario2.

Definition buy_msft : transaction := Transaction "2025-05-01" "MSFT" "buy" 3 400.
Definition sell_msft : transaction := Transaction "2025-05-02" "MSFT" "sell" 3 410.
Definition buy_to_zero : transaction :=
  Transaction "2025-05-03" "AAPL" "buy" (-10) 100.
Definition buy_msft_again : transaction :=
  Transaction "2025-05-04" "MSFT" "buy" 1 440.

End Scenario2.

(** ** Orders of the sorted views *)

Module Order.

(** Descending by [key]: what comes later has a key at most as large;
    ascending: at least as large. *)
Definition desc {A : Type} (key : A -> Q) (a b : A) : Prop := (key b <= key a)%Q.
Definition asc {A : Type} (key : A -> Q) (a b : A) : Prop := (key a <= key b)%Q.

End Order.

Import Order.

(** ** passencrypt.py: the master key *)

Module Keys.

Definition APP_NAME : string := "portt_app".
Definition KEYRING_KEY_ID : string := "portt_app_master_key".
Definition KEYFILE_PATH : string := "~/.portt_master.key".

(** The OS key store: [None] when no backend answers (every call raises),
    otherwise the passwords it holds by service and user name. *)
Abbreviation keyring := (option (gmap (string * string) string)).

(** The files of the user with their permission bits. *)
Record fsys : Type := Fsys {
  data : gmap string string;
  modes : gmap string N
}.

Section Platform.

(** [b64encode k] is [base64.urlsafe_b64encode(k).decode()], [b64decode s]
    is [base64.urlsafe_b64decode(s.encode())], [None] when it raises.
    [default_mode] is the mode of a file that [open(_, "wb")] creates,
    [chmod_ok] tells whether [os.chmod] succeeds on this platform. *)
Variable b64encode : string -> string.
Variable b64decode : string -> option string.
Variable default_mode : N.
Variable chmod_ok : bool.

(** The truth value of a string. *)
Definition nonempty (s : string) : bool := negb (String.eqb s "").

(** [None] when [keyring.set_password] raises. *)
Definition save_key_to_keyring (key : string) (kr : keyring) : option keyring :=
  match kr with
  | None => None
  | Some store =>
      Some (Some (<[(APP_NAME, KEYRING_KEY_ID) := b64encode key]> store))
  end.

Definition load_key_from_keyring (kr : keyring) : option string :=
  match kr with
  | None => None
  | Some store =>
      match store !! (APP_NAME, KEYRING_KEY_ID) with
      | Some stored => if nonempty stored then b64decode stored else None
      | None => None
      end
  end.

(** [os.chmod(path, 0o600)] inside [try: ... except Exception: pass]. *)
Definition chmod_600 (path : string) (fs : fsys) : fsys :=
  if chmod_ok then
    match modes fs !! path with
    | Some _ => Fsys (data fs) (<[path := 384%N]> (modes fs))
    | None => fs
    end
  else fs.

(** [with open(path, "wb") as f: f.write(key)]. *)
Definition write_file (path : string) (key : string) (fs : fsys) : fsys :=
  Fsys (<[path := key]> (data fs))
       (match modes fs !! path with
        | Some _ => modes fs
        | None => <[path := default_mode]> (modes fs)
        end).

(** [os.replace(src, dst)] of an existing file. *)
Definition replace (src dst : string) (fs : fsys) : fsys :=
  match data fs !! src, modes fs !! src with
  | Some c, Some m =>
      Fsys (delete src (<[dst := c]> (data fs)))
           (delete src (<[dst := m]> (modes fs)))
  | _, _ => fs
  end.

Definition save_key_to_keyfile (key : string) (path : string) (fs : fsys) : fsys :=
  let tmp := (path ++ ".tmp")%string in
  let fs := write_file tmp key fs in
  let fs := chmod_600 tmp fs in
  let fs := replace tmp path fs in
  chmod_600 path fs.

Definition load_key_from_keyfile (path : string) (fs : fsys) : option string :=
  data fs !! path.

(** The key when [if key:] holds: neither [None] nor empty. *)
Definition if_key (key : option string) : option string :=
  match key with
  | Some k => if nonempty k then Some k else None
  | None => None
  end.

(** [ensure_master_key()]; [fresh] is the key that [generate_fernet_key()]
    would draw.  The key and the stores as the call leaves them. *)
Definition ensure_master_key (fresh : string) (kr : keyring) (fs : fsys)
  : string * (keyring * fsys) :=
  match if_key (load_key_from_keyring kr) with
  | Some key => (key, (kr, fs))
  | None =>
      match if_key (load_key_from_keyfile KEYFILE_PATH fs) with
      | Some key =>
          match save_key_to_keyring key kr with
          | Some kr' => (key, (kr', fs))
          | None => (key, (kr, fs))
          end
      | None =>
          match save_key_to_keyring fresh kr with
          | Some kr' => (fresh, (kr', fs))
          | None => (fresh, (kr, save_key_to_keyfile fresh KEYFILE_PATH fs))
          end
      end
  end.

End Platform.

End Keys.

(** An encoding that leaves the key as it is, to run the key manager. *)
Module Plain.

Definition b64encode (k : string) : string := k.
Definition b64decode (s : string) : option string := Some s.

(** A machine without a key store and without files. *)
Definition no_files : Keys.fsys := Keys.Fsys ∅ ∅.

End Plain.

(** ** portt_main.py: the session file at exit and at startup *)

Module Startup.

Section Fernet.

Variable fernet_key_ok : string -> bool.
Variable fernet_encrypt : string -> nat -> string -> string.
Variable fernet_decrypt : string -> string -> option string.
Variable json_dumps : json -> string.
Variable json_loads : string -> option json.
Variable MASTER_KEY : string.
Variable yf_history : string -> nat -> option (list Q).
Variable annualized_std : list Q -> float.

(** [save_state_encrypted()] when [passencrypt] is present: an exception of
    [save_encrypted_state] is caught and printed. *)
Definition save_state_encrypted (g : globals) (n : nat)
    (fs : gmap string string) : gmap string string :=
  fst (Passencrypt.save_state fernet_key_ok fernet_encrypt json_dumps MASTER_KEY
         (snapshot_data g) Passencrypt.ENCRYPTED_STATE n fs).

(** The load of the main block, with [load_encrypted_state()] reading the
    files [fs]. *)
Definition main_load (m : memory) (fs : gmap string string)
    (plain : option json) : option memory :=
  startup_load yf_history annualized_std m
    (Passencrypt.load_state fernet_key_ok fernet_decrypt json_loads MASTER_KEY
       Passencrypt.ENCRYPTED_STATE fs)
    plain.

End Fernet.

End Startup.

Import Startup.

(** ** portt_main.py: the monthly summary *)

Module Recap.

Local Open Scope Q_scope.

(** [max(dates)] on a non-empty list of strings: the first of the largest
    ones in the order of the code points. *)
Definition str_max (d : string) (ds : list string) : string :=
  fold_left (fun m x => if String.ltb m x then x else m) ds d.

(** What [monthly_recap] prints. *)
Record report : Type := Report {
  latest_month : string;
  ventures : list transaction;
  total_growth : Q;
  avg_return : Q;
  claim : string
}.

(** [statistics.mean] of a non-empty list. *)
Definition mean (xs : list Q) : Q :=
  fold_left Qplus xs 0 / inject_Z (Z.of_nat (length xs)).

(** [monthly_recap()]: [None] when it returns before printing the summary,
    for want of transactions or of buys. *)
Definition monthly_recap (st : app_state) : option report :=
  match transactions st with
  | [] => None
  | _ =>
      let buy_transactions :=
        List.filter (fun t => String.eqb (tx_type t) "buy") (transactions st) in
      match map tx_date buy_transactions with
      | [] => None
      | d :: ds =>
          let latest_date := str_max d ds in
          let latest_month := String.substring 0 7 latest_date in
          let ventures :=
            List.filter
              (fun t => String.eqb (String.substring 0 7 (tx_date t)) latest_month)
              buy_transactions in
          let total_growth :=
            fold_left Qplus (map unrealized_pl (portfolio st)) 0 in
          let avg_return :=
            match portfolio st with
            | [] => 0
            | _ => mean (map percent_return (portfolio st))
            end in
          Some (Report latest_month ventures total_growth avg_return
                       (get_portfolio_claim ventures (portfolio st)))
      end
  end.

End Recap.

Import Recap.

(** ** portt_main.py: the password check *)

Module Password.

(** [str.isupper], [str.islower] and [str.isdigit] on one character, for
    passwords of ASCII characters. *)
Definition is_upper (c : ascii) : bool :=
  let n := nat_of_ascii c in ((65 <=? n) && (n <=? 90))%nat.
Definition is_lower (c : ascii) : bool :=
  let n := nat_of_ascii c in ((97 <=? n) && (n <=? 122))%nat.
Definition is_digit (c : ascii) : bool :=
  let n := nat_of_ascii c in ((48 <=? n) && (n <=? 57))%nat.

Definition special_chars : string := "!@#$%^&*()_+-=[]{}|;:',.<>?/".

(** [c in s] for a character [c]. *)
Fixpoint char_in (c : ascii) (s : string) : bool :=
  match s with
  | EmptyString => false
  | String d s' => Ascii.eqb d c || char_in c s'
  end.

(** [pattern in s]. *)
Fixpoint contains (pattern s : string) : bool :=
  String.prefix pattern s
  || match s with
     | EmptyString => false
     | String _ s' => contains pattern s'
     end.

(** The four flags, in the order upper, lower, digit, special. *)
Definition flags : Type := (bool * bool * bool * bool)%type.

(** The body of the loop over the characters. *)
Definition scan (fl : flags) (c : ascii) : flags :=
  let '(has_upper, has_lower, has_digit, has_special) := fl in
  if is_upper c then (true, has_lower, has_digit, has_special)
  else if is_lower c then (has_upper, true, has_digit, has_special)
  else if is_digit c then (has_upper, has_lower, true, has_special)
  else if char_in c special_chars then (has_upper, has_lower, has_digit, true)
  else fl.

(** The loop over [range(len(password) - 2)] that looks for three equal
    characters in a row. *)
Definition same3 (password : string) (i : nat) : bool :=
  match String.get i password, String.get (i + 1) password,
        String.get (i + 2) password with
  | Some a, Some b, Some c => Ascii.eqb a b && Ascii.eqb b c
  | _, _, _ => false
  end.

Definition has_repetition (password : string) : bool :=
  existsb (same3 password) (seq 0 (String.length password - 2)).

Definition weak_patterns : list string :=
  ["123"; "abc"; "password"; "qwerty"; "admin"].

Definition has_weak (password : string) : bool :=
  existsb (fun pattern => contains pattern (lower password)) weak_patterns.

Definition checks_passed (fl : flags) : nat :=
  let '(has_upper, has_lower, has_digit, has_special) := fl in
  ((if has_upper then 1 else 0) + (if has_lower then 1 else 0)
   + (if has_digit then 1 else 0) + (if has_special then 1 else 0))%nat.

Definition check_password (password : string) : bool :=
  if (String.length password <? 8)%nat then false
  else
    let fl := fold_left scan (list_ascii_of_string password)
                        (false, false, false, false) in
    if (3 <=? checks_passed fl)%nat && negb (has_repetition password)
       && negb (has_weak password)
    then true
    else if (2 <=? checks_passed fl)%nat then false
    else false.

(** The character classes that a password shows, read off the password
    rather than computed by the loop. *)
Definition shows (class : ascii -> bool) (password : string) : bool :=
  existsb class (list_ascii_of_string password).

Definition classes_shown (password : string) : nat :=
  ((if shows is_upper password then 1 else 0)
   + (if shows is_lower password then 1 else 0)
   + (if shows is_digit password then 1 else 0)
   + (if shows (fun c => char_in c special_chars) password then 1 else 0))%nat.

(** The same character three times in a row, somewhere in [s]. *)
Definition three_in_a_row (s : string) : Prop :=
  exists i a, String.get i s = Some a /\ String.get (i + 1) s = Some a
              /\ String.get (i + 2) s = Some a.

(** [w] occurs in [s]. *)
Definition occurs (w s : string) : Prop :=
  exists pre post, s = (pre ++ w ++ post)%string.

End Password.

Import Password.

(** A session that starts without any asset. *)
Module Scenario3.

Definition st_empty : app_state := AppState [] [] userdata0 None.

(** A gateway that quotes two tickers. *)
Definition yf_last_close : string -> option (option Q) :=
  fun t =>
    if String.eqb t "AAPL" then Some (Some 171.237%Q)
    else if String.eqb t "TSLA" then Some None
    else None.

(** Stands for [round(x, 2)] in the runs: the cents are cut off. *)
Definition round2 (x : Q) : Q :=
  let y := (x * 100)%Q in
  (inject_Z (Qnum y / Z.pos (Qden y)) / 100)%Q.

End Scenario3.

(** * Properties *)

Local Open Scope Q_scope.

(** ** The ledger *)

Lemma find_asset_Some (tk : string) (pf : list asset) (i : nat) (a : asset) :
  find_asset tk pf = Some (i, a) ->
  pf !! i = Some a /\ ticker a = tk /\
  forall j y, pf !! j = Some y -> (j < i)%nat -> ticker y <> tk.
Proof.
  unfold find_asset. intros H. apply list_find_Some in H. exact H.
Qed.

Lemma asset_eqb_refl (a : asset) : asset_eqb a a = true.
Proof.
  unfold asset_eqb.
  rewrite !String.eqb_refl.
  rewrite !(proj2 (Qeq_bool_iff _ _) (Qeq_refl _)).
  destruct (status a) as [s|]; simpl; [apply String.eqb_refl | reflexivity].
Qed.

Lemma asset_eqb_ticker (a b : asset) :
  ticker a <> ticker b -> asset_eqb a b = false.
Proof.
  intros H. unfold asset_eqb.
  destruct (String.eqb_spec (ticker a) (ticker b)) as [E|E]; [contradiction|].
  reflexivity.
Qed.

(** Removing the asset that was just written at the index of the first
    match deletes exactly that index: no earlier element is equal to it. *)
Lemma list_remove_first_match (pf : list asset) (i : nat) (a a' : asset) :
  pf !! i = Some a ->
  (forall j y, pf !! j = Some y -> (j < i)%nat -> ticker y <> ticker a') ->
  list_remove asset_eqb a' (<[i := a']> pf) = Some (delete i pf).
Proof.
  revert i. induction pf as [|x pf IH]; intros i Hi Hfirst.
  - discriminate.
  - destruct i as [|i]; simpl.
    + rewrite asset_eqb_refl. reflexivity.
    + rewrite asset_eqb_ticker.
      * rewrite (IH i).
        -- reflexivity.
        -- exact Hi.
        -- intros j y Hj Hlt. apply (Hfirst (S j) y); [exact Hj | lia].
      * apply (Hfirst 0%nat x); [reflexivity | lia].
Qed.

(** The three branches of [update_portfolio] on a held ticker. *)
Lemma update_portfolio_buy (pf : list asset) (t : transaction) (i : nat) (a : asset) :
  find_asset (tx_ticker t) pf = Some (i, a) ->
  tx_type t = "buy" ->
  update_portfolio pf t =
    match truediv (quantity a * buy_price a + tx_quantity t * tx_price t)
                  (quantity a + tx_quantity t) with
    | None => (pf, Raised ZeroDivisionError)
    | Some avg =>
        (<[i := Asset (ticker a) (quantity a + tx_quantity t) avg
                      (current_price a) (risk a) (status a)]> pf,
         Returned tt)
    end.
Proof.
  intros Hf Hty. unfold update_portfolio. rewrite Hf, Hty. reflexivity.
Qed.

Lemma update_portfolio_sell (pf : list asset) (t : transaction) (i : nat) (a : asset) :
  find_asset (tx_ticker t) pf = Some (i, a) ->
  tx_type t = "sell" ->
  update_portfolio pf t =
    if Qle_bool (quantity a - tx_quantity t) 0
    then (delete i pf, Returned tt)
    else (<[i := Asset (ticker a) (quantity a - tx_quantity t) (buy_price a)
                       (current_price a) (risk a) (status a)]> pf,
          Returned tt).
Proof.
  intros Hf Hty. unfold update_portfolio. rewrite Hf, Hty. simpl.
  destruct (Qle_bool (quantity a - tx_quantity t) 0); [|reflexivity].
  apply find_asset_Some in Hf as (Hi & Htk & Hfirst).
  rewrite (list_remove_first_match pf i a); [reflexivity | exact Hi |].
  simpl. rewrite Htk. exact Hfirst.
Qed.

Lemma update_portfolio_other (pf : list asset) (t : transaction) (i : nat) (a : asset) :
  find_asset (tx_ticker t) pf = Some (i, a) ->
  tx_type t <> "buy" -> tx_type t <> "sell" ->
  update_portfolio pf t = (pf, Returned tt).
Proof.
  intros Hf Hb Hs. unfold update_portfolio. rewrite Hf.
  destruct (String.eqb_spec (tx_type t) "buy"); [contradiction|].
  destruct (String.eqb_spec (tx_type t) "sell"); [contradiction|].
  reflexivity.
Qed.

Lemma update_portfolio_new (pf : list asset) (t : transaction) :
  find_asset (tx_ticker t) pf = None ->
  update_portfolio pf t =
    ((pf ++ [Asset (tx_ticker t) (tx_quantity t) (tx_price t) (tx_price t)
                   "OPTIMAL" None])%list,
     Returned tt).
Proof.
  intros Hf. unfold update_portfolio. rewrite Hf. reflexivity.
Qed.


Section LedgerFacts.

Variable yf_history : string -> nat -> option (list Q).
Variable annualized_std : list Q -> float.

Local Abbreviation record := (record_transaction yf_history annualized_std).
Local Abbreviation refresh := (refresh_portfolio_metrics yf_history annualized_std).

Lemma recalculate_portfolio_list (l : list asset) (p : option (dict string)) :
  snd (recalculate_portfolio yf_history annualized_std l p) = map assign_status l.
Proof. reflexivity. Qed.

Lemma refresh_portfolio (st : app_state) :
  portfolio (refresh st) = map assign_status (portfolio st).
Proof. reflexivity. Qed.

Lemma refresh_transactions (st : app_state) :
  transactions (refresh st) = transactions st.
Proof. reflexivity. Qed.

(** The log after [record_transaction], whatever the outcome. *)
Lemma record_transactions (st : app_state) (t : transaction) :
  transactions (fst (record st t)) = (transactions st ++ [t])%list.
Proof.
  unfold record_transaction. simpl.
  destruct (update_portfolio (portfolio st) t) as [pf [u|e]]; reflexivity.
Qed.

(** The outcome and the positions after [record_transaction], from those of
    [update_portfolio]. *)
Lemma record_returned (st : app_state) (t : transaction) (pf : list asset) :
  update_portfolio (portfolio st) t = (pf, Returned tt) ->
  snd (record st t) = Returned true /\
  portfolio (fst (record st t)) = map assign_status pf.
Proof.
  intros H. unfold record_transaction. simpl. rewrite H. split; reflexivity.
Qed.

Lemma record_raised (st : app_state) (t : transaction) (pf : list asset) (e : exn) :
  update_portfolio (portfolio st) t = (pf, Raised e) ->
  snd (record st t) = Raised e /\ portfolio (fst (record st t)) = pf.
Proof.
  intros H. unfold record_transaction. simpl. rewrite H. split; reflexivity.
Qed.

End LedgerFacts.

(** [make_transaction] once every prompt was answered: a confirmation other
    than "yes" changes nothing; otherwise the transaction is recorded with
    the ticker in upper case and the type in lower case. *)
Lemma make_transaction_answered
    (yf_history : string -> nat -> option (list Q))
    (annualized_std : list Q -> float)
    (st : app_state) (date tk ty confirm : string) (q p : Q) :
  make_transaction yf_history annualized_std st
    (TxInputs (Typed date) (Typed tk) (Typed ty) (Typed q) (Typed p)
              (Typed confirm))
  = if String.eqb (lower confirm) "yes"
    then record_transaction yf_history annualized_std st
           (Transaction date (upper tk) (lower ty) q p)
    else (st, Returned false).
Proof.
  unfold make_transaction. simpl.
  destruct (String.eqb (lower confirm) "yes"); reflexivity.
Qed.

(** *** Buying more of a held asset *)

(** C2. A buy of a held ticker adds the bought quantity to the held one and
    sets the buy price to the quantity-weighted mean
    [(old.quantity * old.buy_price + t.quantity * t.price) / new_quantity];
    the current price (and the ticker, risk and status) stay as they were.
    The new quantity must not be zero, which holds whenever the held
    quantity is not negative and the bought one is positive.  After the
    whole of [make_transaction] the asset is the same up to its status. *)
Theorem buy_weighted_average
    (yf_history : string -> nat -> option (list Q))
    (annualized_std : list Q -> float)
    (st : app_state) (t : transaction) (i : nat) (old : asset) :
  find_asset (tx_ticker t) (portfolio st) = Some (i, old) ->
  tx_type t = "buy" ->
  ~ quantity old + tx_quantity t == 0 ->
  let new_quantity := quantity old + tx_quantity t in
  let new_average :=
    (quantity old * buy_price old + tx_quantity t * tx_price t) / new_quantity in
  let updated :=
    Asset (ticker old) new_quantity new_average (current_price old)
          (risk old) (status old) in
  update_portfolio (portfolio st) t
    = (<[i := updated]> (portfolio st), Returned tt)
  /\ snd (record_transaction yf_history annualized_std st t) = Returned true
  /\ portfolio (fst (record_transaction yf_history annualized_std st t)) !! i
     = Some (assign_status updated).
Proof.
  intros Hf Hty Hnz new_quantity new_average updated.
  assert (Hup : update_portfolio (portfolio st) t
                = (<[i := updated]> (portfolio st), Returned tt)).
  { rewrite (update_portfolio_buy _ _ _ _ Hf Hty). unfold truediv.
    destruct (Qeq_bool (quantity old + tx_quantity t) 0) eqn:E.
    - apply Qeq_bool_iff in E. contradiction.
    - reflexivity. }
  split; [exact Hup|].
  destruct (record_returned yf_history annualized_std st t _ Hup) as [Hr Hp].
  split; [exact Hr|].
  rewrite Hp, list_lookup_fmap.
  apply find_asset_Some in Hf as (Hi & _ & _).
  rewrite list_lookup_insert_eq; [reflexivity|].
  apply lookup_lt_Some in Hi. exact Hi.
Qed.

(** The scenario of the specification: 5 more at 160 on 10 held at 150. *)
Lemma buy_weighted_average_witness :
  find_asset (tx_ticker Scenario.buy_more) (portfolio Scenario.st_aapl)
    = Some (0%nat, Scenario.aapl)
  /\ tx_type Scenario.buy_more = "buy"
  /\ ~ quantity Scenario.aapl + tx_quantity Scenario.buy_more == 0
  /\ update_portfolio (portfolio Scenario.st_aapl) Scenario.buy_more
     = ([Asset "AAPL" (10 + 5) ((10 * 150 + 5 * 160) / (10 + 5)) 170 "high" None],
        Returned tt)
  /\ (10 + 5 == 15 /\ (10 * 150 + 5 * 160) / (10 + 5) == 2300 # 15)
  /\ portfolio (fst (record_transaction Offline.yf_history Offline.annualized_std
                                        Scenario.st_aapl Scenario.buy_more)) !! 0%nat
     = Some (Asset "AAPL" (10 + 5) ((10 * 150 + 5 * 160) / (10 + 5)) 170 "high"
                   (Some "profit")).
Proof.
  assert (Hf : find_asset (tx_ticker Scenario.buy_more) (portfolio Scenario.st_aapl)
               = Some (0%nat, Scenario.aapl)) by reflexivity.
  assert (Hty : tx_type Scenario.buy_more = "buy") by reflexivity.
  assert (Hnz : ~ quantity Scenario.aapl + tx_quantity Scenario.buy_more == 0)
    by (vm_compute; discriminate).
  destruct (buy_weighted_average Offline.yf_history Offline.annualized_std
              Scenario.st_aapl Scenario.buy_more 0%nat Scenario.aapl Hf Hty Hnz)
    as (Hup & _ & Hp).
  split; [exact Hf|]. split; [exact Hty|]. split; [exact Hnz|].
  split; [exact Hup|].
  split; [split; reflexivity|].
  exact Hp.
Defined.

(** *** Selling a held asset *)

(** C3. A sell of a held ticker for less than is held lowers the quantity
    by the sold one and leaves the buy price and the current price as they
    were; a sell of exactly what is held removes the asset from the list. *)
Theorem sell_reduces_or_closes
    (yf_history : string -> nat -> option (list Q))
    (annualized_std : list Q -> float)
    (st : app_state) (t : transaction) (i : nat) (old : asset) :
  find_asset (tx_ticker t) (portfolio st) = Some (i, old) ->
  tx_type t = "sell" ->
  (tx_quantity t < quantity old ->
     let reduced :=
       Asset (ticker old) (quantity old - tx_quantity t) (buy_price old)
             (current_price old) (risk old) (status old) in
     update_portfolio (portfolio st) t
       = (<[i := reduced]> (portfolio st), Returned tt)
     /\ portfolio (fst (record_transaction yf_history annualized_std st t)) !! i
        = Some (assign_status reduced))
  /\ (tx_quantity t == quantity old ->
        update_portfolio (portfolio st) t = (delete i (portfolio st), Returned tt)
        /\ portfolio (fst (record_transaction yf_history annualized_std st t))
           = map assign_status (delete i (portfolio st))).
Proof.
  intros Hf Hty.
  pose proof (update_portfolio_sell _ _ _ _ Hf Hty) as Hup.
  split.
  - intros Hlt reduced.
    destruct (Qle_bool (quantity old - tx_quantity t) 0) eqn:E.
    { apply Qle_bool_iff in E. exfalso.
      apply (Qlt_not_le _ _ Hlt).
      apply (Qplus_le_l _ _ (- tx_quantity t)).
      rewrite Qplus_opp_r. exact E. }
    split; [exact Hup|].
    destruct (record_returned yf_history annualized_std st t _ Hup) as [_ Hp].
    rewrite Hp, list_lookup_fmap.
    apply find_asset_Some in Hf as (Hi & _ & _).
    rewrite list_lookup_insert_eq; [reflexivity|].
    apply lookup_lt_Some in Hi. exact Hi.
  - intros Heq.
    destruct (Qle_bool (quantity old - tx_quantity t) 0) eqn:E.
    + split; [exact Hup|].
      destruct (record_returned yf_history annualized_std st t _ Hup) as [_ Hp].
      exact Hp.
    + exfalso.
      assert (Hle : quantity old - tx_quantity t <= 0).
      { rewrite Heq. unfold Qminus. rewrite Qplus_opp_r. apply Qle_refl. }
      apply Qle_bool_iff in Hle. congruence.
Qed.

Lemma sell_reduces_or_closes_witness :
  (find_asset (tx_ticker Scenario.sell_part) (portfolio Scenario.st_aapl)
     = Some (0%nat, Scenario.aapl)
   /\ tx_type Scenario.sell_part = "sell"
   /\ tx_quantity Scenario.sell_part < quantity Scenario.aapl
   /\ update_portfolio (portfolio Scenario.st_aapl) Scenario.sell_part
      = ([Asset "AAPL" (10 - 4) 150 170 "high" None], Returned tt))
  /\ (find_asset (tx_ticker Scenario.sell_all) (portfolio Scenario.st_aapl)
        = Some (0%nat, Scenario.aapl)
      /\ tx_type Scenario.sell_all = "sell"
      /\ tx_quantity Scenario.sell_all == quantity Scenario.aapl
      /\ update_portfolio (portfolio Scenario.st_aapl) Scenario.sell_all
         = ([], Returned tt)).
Proof.
  split.
  - assert (Hf : find_asset (tx_ticker Scenario.sell_part) (portfolio Scenario.st_aapl)
                 = Some (0%nat, Scenario.aapl)) by reflexivity.
    assert (Hty : tx_type Scenario.sell_part = "sell") by reflexivity.
    assert (Hlt : tx_quantity Scenario.sell_part < quantity Scenario.aapl)
      by reflexivity.
    destruct (sell_reduces_or_closes Offline.yf_history Offline.annualized_std
                Scenario.st_aapl Scenario.sell_part 0%nat Scenario.aapl Hf Hty)
      as [Hless _].
    destruct (Hless Hlt) as [Hup _].
    split; [exact Hf|]. split; [exact Hty|]. split; [exact Hlt|]. exact Hup.
  - assert (Hf : find_asset (tx_ticker Scenario.sell_all) (portfolio Scenario.st_aapl)
                 = Some (0%nat, Scenario.aapl)) by reflexivity.
    assert (Hty : tx_type Scenario.sell_all = "sell") by reflexivity.
    assert (Heq : tx_quantity Scenario.sell_all == quantity Scenario.aapl)
      by reflexivity.
    destruct (sell_reduces_or_closes Offline.yf_history Offline.annualized_std
                Scenario.st_aapl Scenario.sell_all 0%nat Scenario.aapl Hf Hty)
      as [_ Hall].
    destruct (Hall Heq) as [Hup _].
    split; [exact Hf|]. split; [exact Hty|]. split; [exact Heq|]. exact Hup.
Defined.

(** *** A side that is neither buy nor sell *)

(** The refresh writes the status of an asset and nothing else. *)
Lemma assign_status_only_status (a : asset) :
  only_status_written a (assign_status a).
Proof.
  unfold only_status_written, assign_status.
  destruct (Qle_bool (percent_return a) 0) eqn:E; simpl;
    repeat (split; [reflexivity|]).
  - right. split; [apply Qle_bool_iff; exact E | reflexivity].
  - left. split; [|reflexivity].
    apply Qnot_le_lt. intros Hle. apply Qle_bool_iff in Hle. congruence.
Qed.

(** The status that the refresh writes on an asset bought at the price it
    is quoted at. *)
Lemma assign_status_at_cost (tk r : string) (q p : Q) (s : option string) :
  assign_status (Asset tk q p p r s) = Asset tk q p p r (Some "loss").
Proof.
  unfold assign_status, percent_return. simpl.
  destruct (Qeq_bool p 0); [reflexivity|].
  assert (H : Qle_bool ((p - p) / p * 100) 0 = true).
  { apply Qle_bool_iff. apply Qle_lteq. right. unfold Qdiv. ring. }
  rewrite H. reflexivity.
Qed.

(** C10, refuted as stated: a confirmed transaction of another type on a
    held ticker does not leave the collection as it was, the refresh that
    ends [make_transaction] writes the status of the asset. *)
Lemma other_side_writes_status :
  find_asset (tx_ticker Scenario.hold_held) (portfolio Scenario.st_aapl)
    = Some (0%nat, Scenario.aapl)
  /\ snd (record_transaction Offline.yf_history Offline.annualized_std
            Scenario.st_aapl Scenario.hold_held) = Returned true
  /\ portfolio (fst (record_transaction Offline.yf_history Offline.annualized_std
                       Scenario.st_aapl Scenario.hold_held))
     = [Asset "AAPL" 10 150 170 "high" (Some "profit")]
  /\ portfolio (fst (record_transaction Offline.yf_history Offline.annualized_std
                       Scenario.st_aapl Scenario.hold_held))
     <> portfolio Scenario.st_aapl.
Proof.
  split; [reflexivity|]. split; [reflexivity|]. split; [reflexivity|].
  discriminate.
Qed.

(** C10, as the code has it.  A confirmed transaction whose type is
    neither ["buy"] nor ["sell"] is appended to the log and the call
    returns [True].  On an unheld ticker the call leaves the portfolio that
    a buy would leave: the assets of before, and last the new one with the
    transaction's quantity, its price as buy and current price and risk
    ["OPTIMAL"].  On a held ticker the call leaves the assets of before.
    In both cases the refresh has written the status of every asset; a
    portfolio whose statuses were up to date is, on a held ticker, exactly
    as it was. *)
Theorem other_side_recorded
    (yf_history : string -> nat -> option (list Q))
    (annualized_std : list Q -> float)
    (st : app_state) (t : transaction) :
  tx_type t <> "buy" ->
  tx_type t <> "sell" ->
  let after := fst (record_transaction yf_history annualized_std st t) in
  transactions after = (transactions st ++ [t])%list
  /\ snd (record_transaction yf_history annualized_std st t) = Returned true
  /\ (find_asset (tx_ticker t) (portfolio st) = None ->
        portfolio after
          = (map assign_status (portfolio st)
             ++ [Asset (tx_ticker t) (tx_quantity t) (tx_price t) (tx_price t)
                       "OPTIMAL" (Some "loss")])%list
        /\ portfolio after
           = portfolio (fst (record_transaction yf_history annualized_std st
                               (Transaction (tx_date t) (tx_ticker t) "buy"
                                            (tx_quantity t) (tx_price t)))))
  /\ (forall i a, find_asset (tx_ticker t) (portfolio st) = Some (i, a) ->
        portfolio after = map assign_status (portfolio st)
        /\ Forall2 only_status_written (portfolio st) (portfolio after)
        /\ (map assign_status (portfolio st) = portfolio st ->
              portfolio after = portfolio st)).
Proof.
  intros Hb Hs after. subst after.
  split; [apply record_transactions|].
  split.
  - destruct (find_asset (tx_ticker t) (portfolio st)) as [[i a]|] eqn:Hf.
    + apply (record_returned _ _ _ _ _ (update_portfolio_other _ _ _ _ Hf Hb Hs)).
    + apply (record_returned _ _ _ _ _ (update_portfolio_new _ _ Hf)).
  - split.
    + intros Hf.
      destruct (record_returned yf_history annualized_std st t _
                  (update_portfolio_new _ _ Hf)) as [_ Hp].
      destruct (record_returned yf_history annualized_std st
                  (Transaction (tx_date t) (tx_ticker t) "buy"
                               (tx_quantity t) (tx_price t)) _
                  (update_portfolio_new _ (Transaction _ _ _ _ _) Hf))
        as [_ Hp'].
      split.
      * rewrite Hp, map_app. simpl. rewrite assign_status_at_cost. reflexivity.
      * rewrite Hp, Hp'. reflexivity.
    + intros i a Hf.
      destruct (record_returned yf_history annualized_std st t _
                  (update_portfolio_other _ _ _ _ Hf Hb Hs)) as [_ Hp].
      split; [exact Hp|]. split.
      * rewrite Hp. apply Forall2_fmap_r, Forall_Forall2_diag, Forall_forall.
        intros x _. apply assign_status_only_status.
      * intros Heq. rewrite Hp. exact Heq.
Qed.

Lemma other_side_recorded_witness :
  (tx_type Scenario.hold_unheld <> "buy"
   /\ tx_type Scenario.hold_unheld <> "sell"
   /\ transactions (fst (record_transaction Offline.yf_history Offline.annualized_std
                           Scenario.st_aapl Scenario.hold_unheld))
      = [Scenario.hold_unheld]
   /\ portfolio (fst (record_transaction Offline.yf_history Offline.annualized_std
                        Scenario.st_aapl Scenario.hold_unheld))
      = [Asset "AAPL" 10 150 170 "high" (Some "profit");
         Asset "MSFT" 2 100 100 "OPTIMAL" (Some "loss")])
  /\ (tx_type Scenario.hold_held <> "buy"
      /\ tx_type Scenario.hold_held <> "sell"
      /\ transactions (fst (record_transaction Offline.yf_history
                              Offline.annualized_std
                              Scenario.st_aapl Scenario.hold_held))
         = [Scenario.hold_held]
      /\ portfolio (fst (record_transaction Offline.yf_history
                           Offline.annualized_std
                           Scenario.st_aapl Scenario.hold_held))
         = [Asset "AAPL" 10 150 170 "high" (Some "profit")]).
Proof.
  split.
  - assert (Hb : tx_type Scenario.hold_unheld <> "buy") by discriminate.
    assert (Hs : tx_type Scenario.hold_unheld <> "sell") by discriminate.
    destruct (other_side_recorded Offline.yf_history Offline.annualized_std
                Scenario.st_aapl Scenario.hold_unheld Hb Hs)
      as (Hlog & _ & Hnew & _).
    destruct (Hnew eq_refl) as [Hup _].
    split; [exact Hb|]. split; [exact Hs|]. split; [exact Hlog | exact Hup].
  - assert (Hb : tx_type Scenario.hold_held <> "buy") by discriminate.
    assert (Hs : tx_type Scenario.hold_held <> "sell") by discriminate.
    destruct (other_side_recorded Offline.yf_history Offline.annualized_std
                Scenario.st_aapl Scenario.hold_held Hb Hs)
      as (Hlog & _ & _ & Hheld).
    destruct (Hheld 0%nat Scenario.aapl eq_refl) as [Hp _].
    split; [exact Hb|]. split; [exact Hs|].
    split; [exact Hlog | exact Hp].
Defined.

(** *** No transaction is rejected *)




(** *** Held quantities *)

Lemma assign_status_quantity (a : asset) : quantity (assign_status a) = quantity a.
Proof. unfold assign_status. destruct (negb _); reflexivity. Qed.

Lemma all_held_assign_status (pf : list asset) :
  all_held pf -> all_held (map assign_status pf).
Proof.
  unfold all_held. intros H. apply Forall_fmap.
  eapply Forall_impl; [exact H|].
  intros a Ha. simpl. rewrite assign_status_quantity. exact Ha.
Qed.

(** [update_portfolio] keeps every quantity positive when the transaction
    has a positive quantity. *)
Lemma update_portfolio_all_held (pf : list asset) (t : transaction) :
  all_held pf -> 0 < tx_quantity t -> all_held (fst (update_portfolio pf t)).
Proof.
  unfold all_held. intros Hall Hq.
  destruct (find_asset (tx_ticker t) pf) as [[i a]|] eqn:Hf.
  - assert (Ha : 0 < quantity a).
    { apply find_asset_Some in Hf as (Hi & _ & _).
      rewrite Forall_lookup in Hall. apply (Hall i a Hi). }
    destruct (String.eqb_spec (tx_type t) "buy") as [Hb|Hb].
    + rewrite (update_portfolio_buy pf t i a Hf Hb).
      destruct (truediv _ _); simpl; [|exact Hall].
      apply Forall_insert; [exact Hall|]. simpl.
      rewrite <- (Qplus_0_l 0). apply Qplus_lt_le_compat; [exact Ha|].
      apply Qlt_le_weak. exact Hq.
    + destruct (String.eqb_spec (tx_type t) "sell") as [Hs|Hs].
      * rewrite (update_portfolio_sell pf t i a Hf Hs).
        destruct (Qle_bool (quantity a - tx_quantity t) 0) eqn:E; simpl.
        -- apply Forall_delete. exact Hall.
        -- apply Forall_insert; [exact Hall|]. simpl.
           apply Qnot_le_lt. intros Hle. apply Qle_bool_iff in Hle. congruence.
      * rewrite (update_portfolio_other pf t i a Hf Hb Hs). exact Hall.
  - rewrite (update_portfolio_new pf t Hf). simpl.
    apply Forall_app. split; [exact Hall|].
    apply Forall_cons. split; [exact Hq | apply Forall_nil_2].
Qed.

(** C4, refuted as stated: a buy of a negative quantity, which nothing
    rejects, leaves an asset with a negative quantity in the portfolio. *)
Lemma negative_buy_breaks_all_held :
  all_held (portfolio Scenario.st0)
  /\ snd (record_transaction Offline.yf_history Offline.annualized_std
            Scenario.st0 Scenario.buy_negative) = Returned true
  /\ (exists a,
        portfolio (fst (record_transaction Offline.yf_history Offline.annualized_std
                          Scenario.st0 Scenario.buy_negative)) !! 0%nat = Some a
        /\ ticker a = "AAPL" /\ quantity a == -10)
  /\ ~ all_held (portfolio (fst (record_transaction Offline.yf_history
                                   Offline.annualized_std
                                   Scenario.st0 Scenario.buy_negative))).
Proof.
  split.
  { unfold all_held. repeat (apply Forall_cons; split; [reflexivity|]).
    apply Forall_nil_2. }
  split; [reflexivity|].
  split.
  { eexists. split; [reflexivity|]. split; reflexivity. }
  unfold all_held. intros H. apply Forall_inv in H.
  vm_compute in H. discriminate H.
Qed.

(** C4, as the code has it: when every held quantity is positive and the
    transaction has a positive quantity, every asset that
    [make_transaction] leaves in the portfolio has a positive quantity. *)
Theorem positive_transaction_keeps_all_held
    (yf_history : string -> nat -> option (list Q))
    (annualized_std : list Q -> float)
    (st : app_state) (t : transaction) :
  all_held (portfolio st) ->
  0 < tx_quantity t ->
  snd (record_transaction yf_history annualized_std st t) = Returned true
  /\ all_held (portfolio (fst (record_transaction yf_history annualized_std st t))).
Proof.
  intros Hall Hq.
  pose proof (update_portfolio_all_held _ _ Hall Hq) as Hheld.
  destruct (update_portfolio (portfolio st) t) as [pf o] eqn:Hup.
  simpl in Hheld.
  destruct o as [[]|e].
  - destruct (record_returned yf_history annualized_std _ _ _ Hup) as [Hr Hp].
    split; [exact Hr|]. rewrite Hp. apply all_held_assign_status. exact Hheld.
  - exfalso.
    (* only the buy branch raises, and only on a zero total quantity *)
    destruct (find_asset (tx_ticker t) (portfolio st)) as [[i a]|] eqn:Hf.
    + assert (Ha : 0 < quantity a).
      { apply find_asset_Some in Hf as (Hi & _ & _).
        unfold all_held in Hall. rewrite Forall_lookup in Hall.
        apply (Hall i a Hi). }
      destruct (String.eqb_spec (tx_type t) "buy") as [Hb|Hb].
      * rewrite (update_portfolio_buy _ t i a Hf Hb) in Hup.
        unfold truediv in Hup.
        destruct (Qeq_bool (quantity a + tx_quantity t) 0) eqn:E;
          [|discriminate Hup].
        apply Qeq_bool_iff in E.
        assert (Hpos : 0 < quantity a + tx_quantity t).
        { rewrite <- (Qplus_0_l 0). apply Qplus_lt_le_compat; [exact Ha|].
          apply Qlt_le_weak. exact Hq. }
        rewrite E in Hpos. apply (Qlt_irrefl _ Hpos).
      * destruct (String.eqb_spec (tx_type t) "sell") as [Hs|Hs].
        -- rewrite (update_portfolio_sell _ t i a Hf Hs) in Hup.
           destruct (Qle_bool _ _); discriminate Hup.
        -- rewrite (update_portfolio_other _ t i a Hf Hb Hs) in Hup.
           discriminate Hup.
    + rewrite (update_portfolio_new _ t Hf) in Hup. discriminate Hup.
Qed.

Lemma positive_transaction_keeps_all_held_witness :
  all_held (portfolio Scenario.st0)
  /\ 0 < tx_quantity Scenario.sell_too_much
  /\ snd (record_transaction Offline.yf_history Offline.annualized_std
            Scenario.st0 Scenario.sell_too_much) = Returned true
  /\ all_held (portfolio (fst (record_transaction Offline.yf_history
                                 Offline.annualized_std
                                 Scenario.st0 Scenario.sell_too_much))).
Proof.
  assert (Hall : all_held (portfolio Scenario.st0)).
  { unfold all_held. repeat (apply Forall_cons; split; [reflexivity|]).
    apply Forall_nil_2. }
  assert (Hq : 0 < tx_quantity Scenario.sell_too_much) by reflexivity.
  destruct (positive_transaction_keeps_all_held Offline.yf_history
              Offline.annualized_std Scenario.st0 Scenario.sell_too_much Hall Hq)
    as [Hr Hheld].
  split; [exact Hall|]. split; [exact Hq|]. split; [exact Hr | exact Hheld].
Defined.

(** ** The metrics engine *)

(** C7, refuted as stated: [recalculate_portfolio] writes the key
    ["status"] of every asset of the list it is given. *)
Lemma recalculate_writes_status :
  status <$> portfolio0 = [None; None; None]
  /\ status <$> snd (recalculate_portfolio Offline.yf_history Offline.annualized_std
                       portfolio0 None)
     = [Some "profit"; Some "loss"; Some "profit"]
  /\ snd (recalculate_portfolio Offline.yf_history Offline.annualized_std
            portfolio0 None) <> portfolio0.
Proof.
  split; [reflexivity|]. split; [reflexivity|].
  intros H. apply (f_equal (fmap status)) in H. vm_compute in H. discriminate H.
Qed.

(** C7, as the code has it: [recalculate_portfolio] leaves the list with
    the same assets in the same order, each with its ticker, quantity, buy
    price, current price and risk as before; the one key it writes is
    ["status"], set to ["profit"] when the percent return is positive and
    to ["loss"] otherwise. *)
Theorem recalculate_only_writes_status
    (yf_history : string -> nat -> option (list Q))
    (annualized_std : list Q -> float)
    (portfolio_list : list asset) (preferences : option (dict string)) :
  Forall2 only_status_written portfolio_list
    (snd (recalculate_portfolio yf_history annualized_std
                                portfolio_list preferences)).
Proof.
  rewrite recalculate_portfolio_list.
  induction portfolio_list as [|a l IH]; simpl.
  - apply Forall2_nil_2.
  - apply Forall2_cons. split; [apply assign_status_only_status | exact IH].
Qed.

(** ** The risk classifier *)

Lemma classify_vol_cases (v : Q) :
  (0.45 < v /\ classify_vol (Some (Num v)) = "HIGH")
  \/ (0.20 < v /\ v <= 0.45 /\ classify_vol (Some (Num v)) = "OPTIMAL")
  \/ (v <= 0.20 /\ classify_vol (Some (Num v)) = "LOW").
Proof.
  unfold classify_vol, float_gt.
  destruct (Qle_bool v 0.45) eqn:E1; simpl.
  - apply Qle_bool_iff in E1.
    destruct (Qle_bool v 0.20) eqn:E2; simpl.
    + apply Qle_bool_iff in E2. right. right. split; [exact E2 | reflexivity].
    + right. left. split; [|split; [exact E1 | reflexivity]].
      apply Qnot_le_lt. intros Hle. apply Qle_bool_iff in Hle. congruence.
  - left. split; [|reflexivity].
    apply Qnot_le_lt. intros Hle. apply Qle_bool_iff in Hle. congruence.
Qed.

(** C8 fails on a ticker with exactly two closes on record.  [volatility]
    lets two closes through its test for insufficient data, the single
    return has no sample standard deviation, and the volatility is NaN,
    which is neither unavailable nor at most 0.20; both comparisons of
    [classify_risk] are false of it and the answer is ["LOW"], whatever
    the closes. *)
Lemma two_closes_classified_low :
  Thin.yf_history (normalize_ticker (ticker Scenario.aapl)) 60%nat
    = Some [170; 172]
  /\ volatility Thin.yf_history Thin.annualized_std (ticker Scenario.aapl) 60
     = Some NaN
  /\ classify_risk Thin.yf_history Thin.annualized_std Scenario.aapl = "LOW"
  /\ ~ (exists v, volatility Thin.yf_history Thin.annualized_std
                    (ticker Scenario.aapl) 60 = Some (Num v)
                  /\ v <= 0.20).
Proof.
  split; [reflexivity|]. split; [reflexivity|]. split; [reflexivity|].
  intros (v & Hv & _). discriminate Hv.
Qed.

(** The steps of [classify_risk], as the code has them.  It is a step
    function of the volatility of the ticker: ["HIGH"] exactly for a
    number above 0.45, ["OPTIMAL"] exactly for a number in (0.20, 0.45],
    ["LOW"] exactly for a number up to 0.20 and for NaN, and ["UNKNOWN"]
    exactly when there is no volatility, that is when the gateway fails or
    returns fewer than two closes.  With exactly two closes the volatility
    is NaN. *)
Theorem classify_risk_steps
    (yf_history : string -> nat -> option (list Q))
    (annualized_std : list Q -> float)
    (item : asset) :
  let vol := volatility yf_history annualized_std (ticker item) 60 in
  let tier := classify_risk yf_history annualized_std item in
  (tier = "HIGH" <-> exists v, vol = Some (Num v) /\ 0.45 < v)
  /\ (tier = "OPTIMAL"
      <-> exists v, vol = Some (Num v) /\ 0.20 < v /\ v <= 0.45)
  /\ (tier = "LOW"
      <-> vol = Some NaN \/ exists v, vol = Some (Num v) /\ v <= 0.20)
  /\ (tier = "UNKNOWN" <-> vol = None)
  /\ (vol = None <->
        yf_history (normalize_ticker (ticker item)) 60%nat = None
        \/ exists data,
             yf_history (normalize_ticker (ticker item)) 60%nat = Some data
             /\ (length data < 2)%nat)
  /\ (forall data,
        yf_history (normalize_ticker (ticker item)) 60%nat = Some data ->
        length data = 2%nat -> vol = Some NaN).
Proof.
  intros vol tier. subst tier. unfold classify_risk. fold vol.
  assert (Hsteps :
    (classify_vol vol = "HIGH" <-> exists v, vol = Some (Num v) /\ 0.45 < v)
    /\ (classify_vol vol = "OPTIMAL"
        <-> exists v, vol = Some (Num v) /\ 0.20 < v /\ v <= 0.45)
    /\ (classify_vol vol = "LOW"
        <-> vol = Some NaN \/ exists v, vol = Some (Num v) /\ v <= 0.20)
    /\ (classify_vol vol = "UNKNOWN" <-> vol = None)).
  { destruct vol as [[v|]|].
    - destruct (classify_vol_cases v) as [[H1 ->] | [(H1 & H2 & ->) | [H1 ->]]].
      + split; [split; [intros _; exists v; split; [reflexivity | exact H1]
                       | reflexivity]|].
        split; [split; [discriminate|]|].
        { intros (w & Hw & _ & Hle). injection Hw as <-.
          exfalso. apply (Qlt_not_le _ _ H1 Hle). }
        split; [split; [discriminate|]|].
        { intros [Hn | (w & Hw & Hle)]; [discriminate Hn|]. injection Hw as <-.
          exfalso. apply (Qlt_not_le _ _ H1).
          apply (Qle_trans _ _ _ Hle). discriminate. }
        split; discriminate.
      + split; [split; [discriminate|]|].
        { intros (w & Hw & Hlt). injection Hw as <-.
          exfalso. apply (Qlt_not_le _ _ Hlt H2). }
        split; [split; [intros _; exists v; auto | reflexivity]|].
        split; [split; [discriminate|]|].
        { intros [Hn | (w & Hw & Hle)]; [discriminate Hn|]. injection Hw as <-.
          exfalso. apply (Qlt_not_le _ _ H1 Hle). }
        split; discriminate.
      + split; [split; [discriminate|]|].
        { intros (w & Hw & Hlt). injection Hw as <-.
          exfalso. apply (Qlt_not_le _ _ Hlt).
          apply (Qle_trans _ _ _ H1). discriminate. }
        split; [split; [discriminate|]|].
        { intros (w & Hw & Hlt & _). injection Hw as <-.
          exfalso. apply (Qlt_not_le _ _ Hlt H1). }
        split; [split; [intros _; right; exists v; auto | reflexivity]|].
        split; discriminate.
    - simpl.
      split; [split; [discriminate | intros (w & Hw & _); discriminate]|].
      split; [split; [discriminate | intros (w & Hw & _); discriminate]|].
      split; [split; [intros _; left; reflexivity | reflexivity]|].
      split; discriminate.
    - simpl.
      split; [split; [discriminate | intros (w & Hw & _); discriminate]|].
      split; [split; [discriminate | intros (w & Hw & _); discriminate]|].
      split; [split; [discriminate
                     | intros [Hn | (w & Hw & _)]; discriminate]|].
      split; reflexivity. }
  destruct Hsteps as (H1 & H2 & H3 & H4).
  split; [exact H1|]. split; [exact H2|]. split; [exact H3|]. split; [exact H4|].
  subst vol. unfold volatility, returns_std.
  destruct (yf_history (normalize_ticker (ticker item)) 60%nat) as [data|].
  - split.
    + destruct (Nat.ltb_spec (length data) 2) as [Hlt|Hge].
      * split; [intros _; right; exists data; split; [reflexivity | exact Hlt]
               | reflexivity].
      * split; [discriminate|].
        intros [H | (d & Hd & Hlt)]; [discriminate|].
        injection Hd as <-. lia.
    + intros d Hd Hlen. injection Hd as <-. rewrite Hlen. reflexivity.
  - split; [|discriminate].
    split; [intros _; left; reflexivity | reflexivity].
Qed.

(** ** The encrypted state file *)

Import Passencrypt.

(** The toy cipher honours the contract of an authenticated cipher. *)
Lemma toy_decrypt_encrypt (k : string) (n : nat) (m : string) :
  Toy.key_ok k = true -> Toy.decrypt k (Toy.encrypt k n m) = Some m.
Proof.
  destruct k as [|c [|c' k]]; try discriminate. intros _.
  unfold Toy.encrypt, Toy.decrypt. simpl. rewrite Ascii.eqb_refl. reflexivity.
Qed.


(** C5, refuted as stated: [load_state] gives the caller the same value,
    [None], when there is no state file and when the file fails the
    integrity check of [decrypt]. *)
Lemma load_state_hides_failure :
  decrypt_state Toy.key_ok Toy.decrypt Toy.loads "k" ENCRYPTED_STATE ∅
    = Returned JNull
  /\ decrypt_state Toy.key_ok Toy.decrypt Toy.loads "k" ENCRYPTED_STATE
       Scenario.tampered = Raised InvalidToken
  /\ load_state Toy.key_ok Toy.decrypt Toy.loads "k" ENCRYPTED_STATE
       Scenario.tampered
     = load_state Toy.key_ok Toy.decrypt Toy.loads "k" ENCRYPTED_STATE ∅.
Proof.
  split; [reflexivity|]. split; reflexivity.
Qed.

(** C5, as the code has it: without a state file [decrypt_state] returns
    [None] and so does [load_state]; on a file that fails the integrity
    check [decrypt_state] raises [InvalidToken], which is distinct from
    [None] there, and [load_state] catches it and returns [None] as well. *)
Theorem load_state_absent_or_failed
    (fernet_key_ok : string -> bool)
    (fernet_decrypt : string -> string -> option string)
    (json_loads : string -> option json)
    (MASTER_KEY filename : string) (fs : gmap string string) :
  (fs !! filename = None ->
     decrypt_state fernet_key_ok fernet_decrypt json_loads MASTER_KEY filename fs
       = Returned JNull
     /\ load_state fernet_key_ok fernet_decrypt json_loads MASTER_KEY filename fs
        = JNull)
  /\ (forall token,
        fs !! filename = Some token ->
        fernet_key_ok MASTER_KEY = true ->
        fernet_decrypt MASTER_KEY token = None ->
        decrypt_state fernet_key_ok fernet_decrypt json_loads MASTER_KEY filename fs
          = Raised InvalidToken
        /\ load_state fernet_key_ok fernet_decrypt json_loads MASTER_KEY filename fs
           = JNull).
Proof.
  split.
  - intros H. unfold load_state, decrypt_state. rewrite H. split; reflexivity.
  - intros token H Hk Hd. unfold load_state, decrypt_state.
    rewrite H, Hk, Hd. split; reflexivity.
Qed.

Lemma load_state_absent_or_failed_witness :
  ((∅ : gmap string string) !! ENCRYPTED_STATE = None
   /\ load_state Toy.key_ok Toy.decrypt Toy.loads "k" ENCRYPTED_STATE ∅ = JNull)
  /\ (Scenario.tampered !! ENCRYPTED_STATE = Some "Xsnapshot"
      /\ Toy.key_ok "k" = true
      /\ Toy.decrypt "k" "Xsnapshot" = None
      /\ decrypt_state Toy.key_ok Toy.decrypt Toy.loads "k" ENCRYPTED_STATE
           Scenario.tampered = Raised InvalidToken
      /\ load_state Toy.key_ok Toy.decrypt Toy.loads "k" ENCRYPTED_STATE
           Scenario.tampered = JNull).
Proof.
  split.
  - assert (H : (∅ : gmap string string) !! ENCRYPTED_STATE = None) by reflexivity.
    destruct (load_state_absent_or_failed Toy.key_ok Toy.decrypt Toy.loads
                "k" ENCRYPTED_STATE ∅) as [Habsent _].
    split; [exact H | exact (proj2 (Habsent H))].
  - assert (H : Scenario.tampered !! ENCRYPTED_STATE = Some "Xsnapshot")
      by reflexivity.
    assert (Hk : Toy.key_ok "k" = true) by reflexivity.
    assert (Hd : Toy.decrypt "k" "Xsnapshot" = None) by reflexivity.
    destruct (load_state_absent_or_failed Toy.key_ok Toy.decrypt Toy.loads
                "k" ENCRYPTED_STATE Scenario.tampered) as [_ Hfail].
    destruct (Hfail "Xsnapshot" H Hk Hd) as [Hraise Hnone].
    split; [exact H|]. split; [exact Hk|]. split; [exact Hd|].
    split; [exact Hraise | exact Hnone].
Defined.



(** ** The saved session *)

(** C9, refuted as stated: the members of the saved object are not named
    as in the data model, and the third one is not the preferences object
    but the list [userdata], whose first element holds the credentials. *)
Lemma snapshot_members_are_not_the_data_model :
  member_names (snapshot_data (globals_of Scenario.st0))
    = ["portfolio"; "transactions"; "userdata"]
  /\ member_names (snapshot_data (globals_of Scenario.st0)) <> data_model_members
  /\ (exists d, snapshot_data (globals_of Scenario.st0) = JDict d
                /\ dict_get "positions" d = None
                /\ dict_get "preferences" d = None
                /\ dict_get "userdata" d
                   = Some (JList [strdict_to_json
                                    [("nick", "x"); ("password", "123");
                                     ("Birthday", "14/09/2007");
                                     ("country", "Minnesota")];
                                  strdict_to_json
                                    [("layout", "1");
                                     ("order", "HtoLrisk or LtoHrisk")]])).
Proof.
  split; [reflexivity|]. split; [discriminate|].
  eexists. split; [reflexivity|]. split; [reflexivity|]. split; reflexivity.
Qed.

Lemma assign_member_missing (d : list (string * json)) (k : string) (x : list json) :
  dict_get k d = None -> assign_member (JDict d) k x = Returned x.
Proof.
  intros H. unfold assign_member, get_member. rewrite H. reflexivity.
Qed.

(** Running an assignment again on what it stored stores the same, and an
    assignment that raises does so whatever the list holds. *)
Lemma assign_member_again (loaded : json) (k : string) (x : list json) :
  match assign_member loaded k x with
  | Returned l => assign_member loaded k l = Returned l
  | Raised e => forall y, assign_member loaded k y = Raised e
  end.
Proof.
  unfold assign_member, get_member.
  destruct loaded; try (intros y; reflexivity).
  destruct (dict_get k d) as [v|]; simpl.
  - destruct (iterate v); [reflexivity | intros y; reflexivity].
  - reflexivity.
Qed.

Lemma merge_snapshot_again (g : globals) (data : json) :
  merge_snapshot (fst (merge_snapshot g data)) data = merge_snapshot g data.
Proof.
  unfold merge_snapshot.
  pose proof (assign_member_again data "portfolio" (g_portfolio g)) as Hp.
  destruct (assign_member data "portfolio" (g_portfolio g)) as [p|e] eqn:Ep.
  2:{ simpl. rewrite Ep. reflexivity. }
  pose proof (assign_member_again data "transactions" (g_transactions g)) as Ht.
  destruct (assign_member data "transactions" (g_transactions g))
    as [t|e] eqn:Et.
  2:{ simpl. rewrite Hp, Et. reflexivity. }
  pose proof (assign_member_again data "userdata" (g_userdata g)) as Hu.
  destruct (assign_member data "userdata" (g_userdata g)) as [u|e] eqn:Eu.
  2:{ simpl. rewrite Hp, Ht, Eu. reflexivity. }
  simpl. rewrite Hp, Ht, Hu. reflexivity.
Qed.

Section LoadFacts.

Variable yf_history : string -> nat -> option (list Q).
Variable annualized_std : list Q -> float.

(** A [load_state()] that raised raises again, and changes nothing more,
    when it is run a second time. *)
Lemma load_state_again (m m' : memory) (plain : option json) (e : exn) :
  Session.load_state yf_history annualized_std m plain = Some (m', Raised e) ->
  Session.load_state yf_history annualized_std m' plain = Some (m', Raised e).
Proof.
  destruct plain as [data|]; [|discriminate].
  unfold Session.load_state.
  pose proof (merge_snapshot_again (m_lists m) data) as Hagain.
  destruct (merge_snapshot (m_lists m) data) as [g [[]|e0]] eqn:Hm;
    simpl in Hagain.
  - unfold finish_load. cbn [with_lists with_creds with_preferences m_lists].
    destruct (g_userdata g !! 0%nat) as [c|] eqn:E0.
    + destruct (g_userdata g !! 1%nat) as [p|] eqn:E1.
      * unfold refresh_loaded.
        cbn [with_lists with_creds with_preferences m_lists m_preferences].
        destruct (mapM asset_of_json (g_portfolio g)) as [pf|] eqn:Epf;
          [|discriminate].
        destruct (preferences_read p) as [prefs|e1] eqn:Ep.
        { destruct (recalculate_portfolio _ _ pf prefs). discriminate. }
        intros [= <- <-].
        cbn [with_lists with_creds with_preferences m_lists m_preferences
             m_creds m_metrics].
        rewrite Hagain, E0, E1. cbn [m_lists m_preferences].
        rewrite Epf, Ep. reflexivity.
      * intros [= <- <-].
        cbn [with_lists with_creds with_preferences m_lists m_preferences
             m_creds m_metrics].
        rewrite Hagain, E0, E1. reflexivity.
    + intros [= <- <-].
      cbn [with_lists m_lists m_preferences m_creds m_metrics].
      rewrite Hagain, E0. reflexivity.
  - intros [= <- <-]. cbn [with_lists m_lists]. rewrite Hagain. reflexivity.
Qed.

(** When [loaded] is not truthy the main block does what [load_state()]
    does. *)
Lemma startup_load_not_truthy (m : memory) (loaded : json)
    (plain : option json) :
  truthy loaded = false ->
  startup_load yf_history annualized_std m loaded plain
  = fst <$> Session.load_state yf_history annualized_std m plain.
Proof.
  intros H. unfold startup_load. rewrite H.
  destruct (Session.load_state yf_history annualized_std m plain)
    as [[m' [[]|e]]|] eqn:Hl; [reflexivity | | reflexivity].
  unfold fall_back. rewrite (load_state_again _ _ _ _ Hl). reflexivity.
Qed.

(** An empty stored object is not merged by the main block: the plain
    file is loaded instead. *)
Lemma startup_load_empty (m : memory) (plain : option json) :
  startup_load yf_history annualized_std m (JDict []) plain
  = fst <$> Session.load_state yf_history annualized_std m plain.
Proof. apply startup_load_not_truthy. reflexivity. Qed.

End LoadFacts.

(** C9, as the code has it: the saved object has exactly the three members
    ["portfolio"], ["transactions"] and ["userdata"], holding the three
    module-level lists; loading it back replaces the three lists; and the
    three assignments that load a stored object leave a list as it was
    before the load when its member is missing from the object. *)
Theorem snapshot_members_and_merge (g g' : globals) (d : list (string * json)) :
  snapshot_data g
    = JDict [("portfolio", JList (g_portfolio g));
             ("transactions", JList (g_transactions g));
             ("userdata", JList (g_userdata g))]
  /\ member_names (snapshot_data g) = ["portfolio"; "transactions"; "userdata"]
  /\ merge_snapshot g' (snapshot_data g) = (g, Returned tt)
  /\ (dict_get "portfolio" d = None ->
        g_portfolio (fst (merge_snapshot g (JDict d))) = g_portfolio g)
  /\ (dict_get "transactions" d = None ->
        g_transactions (fst (merge_snapshot g (JDict d))) = g_transactions g)
  /\ (dict_get "userdata" d = None ->
        g_userdata (fst (merge_snapshot g (JDict d))) = g_userdata g)
  /\ (dict_get "portfolio" d = None -> dict_get "transactions" d = None ->
      dict_get "userdata" d = None ->
        merge_snapshot g (JDict d) = (g, Returned tt)).
Proof.
  split; [reflexivity|]. split; [reflexivity|].
  split; [destruct g; reflexivity|].
  split; [|split; [|split]].
  - intros H. unfold merge_snapshot. rewrite (assign_member_missing _ _ _ H).
    destruct (assign_member (JDict d) "transactions" _); [|reflexivity].
    destruct (assign_member (JDict d) "userdata" _); reflexivity.
  - intros H. unfold merge_snapshot.
    destruct (assign_member (JDict d) "portfolio" _); [|reflexivity].
    rewrite (assign_member_missing _ _ _ H).
    destruct (assign_member (JDict d) "userdata" _); reflexivity.
  - intros H. unfold merge_snapshot.
    destruct (assign_member (JDict d) "portfolio" _); [|reflexivity].
    destruct (assign_member (JDict d) "transactions" _); [|reflexivity].
    rewrite (assign_member_missing _ _ _ H). reflexivity.
  - intros Hp Ht Hu. unfold merge_snapshot.
    rewrite (assign_member_missing _ _ _ Hp), (assign_member_missing _ _ _ Ht),
      (assign_member_missing _ _ _ Hu).
    destruct g; reflexivity.
Qed.

Lemma snapshot_members_and_merge_witness :
  dict_get "portfolio" [("transactions", JList [])] = None
  /\ g_portfolio
       (fst (merge_snapshot (globals_of Scenario.st0)
                            (JDict [("transactions", JList [])])))
     = g_portfolio (globals_of Scenario.st0)
  /\ g_transactions
       (fst (merge_snapshot (globals_of Scenario.st0)
                            (JDict [("transactions", JList [])])))
     = [].
Proof.
  assert (H : dict_get "portfolio" [("transactions", JList [])] = None)
    by reflexivity.
  destruct (snapshot_members_and_merge (globals_of Scenario.st0)
              (globals_of Scenario.st0) [("transactions", JList [])])
    as (_ & _ & _ & Hp & _).
  split; [exact H|]. split; [exact (Hp H) | reflexivity].
Defined.

(** * Further properties *)

(** ** The ledger, beyond one transaction *)



Lemma filter_insert_out {A : Type} (P : A -> Prop) `{forall x, Decision (P x)}
    (l : list A) (i : nat) (x y : A) :
  l !! i = Some x -> ~ P x -> ~ P y -> filter P (<[i := y]> l) = filter P l.
Proof.
  revert i. induction l as [|z l IH]; intros i Hi Hx Hy; [discriminate|].
  destruct i as [|i]; simpl in *.
  - injection Hi as ->.
    rewrite (filter_cons_False P y l Hy), (filter_cons_False P x l Hx).
    reflexivity.
  - rewrite !filter_cons, (IH i Hi Hx Hy). reflexivity.
Qed.

Lemma filter_delete_out {A : Type} (P : A -> Prop) `{forall x, Decision (P x)}
    (l : list A) (i : nat) (x : A) :
  l !! i = Some x -> ~ P x -> filter P (delete i l) = filter P l.
Proof.
  revert i. induction l as [|z l IH]; intros i Hi Hx; [discriminate|].
  destruct i as [|i]; simpl in *.
  - injection Hi as ->. rewrite (filter_cons_False P x l Hx). reflexivity.
  - rewrite !filter_cons, (IH i Hi Hx). reflexivity.
Qed.

(** X2. A transaction touches no asset of another ticker: the assets whose
    ticker differs from the transaction's are the same, in the same order,
    before and after [update_portfolio]. *)
Theorem update_portfolio_frame (pf : list asset) (t : transaction) :
  filter (fun a => ticker a <> tx_ticker t) (fst (update_portfolio pf t))
  = filter (fun a => ticker a <> tx_ticker t) pf.
Proof.
  destruct (find_asset (tx_ticker t) pf) as [[i a]|] eqn:Hf.
  - pose proof Hf as Hf'. apply find_asset_Some in Hf' as (Hi & Htk & _).
    assert (Ha : ~ ticker a <> tx_ticker t) by (intros Hne; apply Hne; exact Htk).
    destruct (String.eqb_spec (tx_type t) "buy") as [Hb|Hb].
    + rewrite (update_portfolio_buy pf t i a Hf Hb).
      destruct (truediv _ _); simpl; [|reflexivity].
      apply (filter_insert_out _ pf i a); [exact Hi | exact Ha |].
      simpl. exact Ha.
    + destruct (String.eqb_spec (tx_type t) "sell") as [Hs|Hs].
      * rewrite (update_portfolio_sell pf t i a Hf Hs).
        destruct (Qle_bool _ _); simpl.
        -- apply (filter_delete_out _ pf i a); [exact Hi | exact Ha].
        -- apply (filter_insert_out _ pf i a); [exact Hi | exact Ha |].
           simpl. exact Ha.
      * rewrite (update_portfolio_other pf t i a Hf Hb Hs). reflexivity.
  - rewrite (update_portfolio_new pf t Hf). simpl.
    rewrite filter_app, filter_cons_False, filter_nil, app_nil_r; [reflexivity|].
    simpl. intros Hne. apply Hne. reflexivity.
Qed.

Lemma find_asset_None_not_in (tk : string) (pf : list asset) :
  find_asset tk pf = None -> tk ∉ map ticker pf.
Proof.
  unfold find_asset. intros H. apply list_find_None in H.
  intros Hin. apply list_elem_of_fmap in Hin as (a & -> & Ha).
  rewrite Forall_forall in H. apply (H a Ha). reflexivity.
Qed.

(** X3. If no two assets share a ticker before a transaction, none do
    after it. *)
Theorem update_portfolio_unique_tickers (pf : list asset) (t : transaction) :
  NoDup (map ticker pf) -> NoDup (map ticker (fst (update_portfolio pf t))).
Proof.
  intros Hnd.
  destruct (find_asset (tx_ticker t) pf) as [[i a]|] eqn:Hf.
  - pose proof Hf as Hf'. apply find_asset_Some in Hf' as (Hi & _ & _).
    assert (Hins : forall a', ticker a' = ticker a ->
                     map ticker (<[i := a']> pf) = map ticker pf).
    { intros a' Ha'. change (map ticker) with (fmap (M:=list) ticker).
      rewrite list_fmap_insert, Ha'. apply list_insert_id.
      rewrite list_lookup_fmap, Hi. reflexivity. }
    destruct (String.eqb_spec (tx_type t) "buy") as [Hb|Hb].
    + rewrite (update_portfolio_buy pf t i a Hf Hb).
      destruct (truediv _ _); simpl; [|exact Hnd].
      rewrite Hins; [exact Hnd | reflexivity].
    + destruct (String.eqb_spec (tx_type t) "sell") as [Hs|Hs].
      * rewrite (update_portfolio_sell pf t i a Hf Hs).
        destruct (Qle_bool _ _); simpl.
        -- apply (sublist_NoDup _ (map ticker pf)); [exact Hnd|].
           apply (fmap_sublist ticker), sublist_delete.
        -- rewrite Hins; [exact Hnd | reflexivity].
      * rewrite (update_portfolio_other pf t i a Hf Hb Hs). exact Hnd.
  - rewrite (update_portfolio_new pf t Hf). simpl.
    rewrite map_app. simpl. apply NoDup_app. split; [exact Hnd|].
    split; [|apply NoDup_singleton].
    intros x Hx Hx'. apply list_elem_of_singleton in Hx'. subst x.
    apply (find_asset_None_not_in _ _ Hf Hx).
Qed.

Lemma update_portfolio_unique_tickers_witness :
  NoDup (map ticker portfolio0)
  /\ NoDup (map ticker (fst (update_portfolio portfolio0 Scenario2.buy_msft))).
Proof.
  assert (H : NoDup (map ticker portfolio0)).
  { simpl.
    repeat (apply NoDup_cons; split;
            [rewrite ?not_elem_of_cons; repeat split;
             first [discriminate | apply not_elem_of_nil]|]).
    apply NoDup_nil_2. }
  split; [exact H|].
  exact (update_portfolio_unique_tickers portfolio0 Scenario2.buy_msft H).
Defined.

Lemma find_asset_app_new (tk : string) (pf : list asset) (a : asset) :
  find_asset tk pf = None -> ticker a = tk ->
  find_asset tk (pf ++ [a]) = Some (length pf, a).
Proof.
  unfold find_asset. intros Hf Ha.
  rewrite (list_find_app_r _ _ _ Hf). simpl.
  destruct (decide (ticker a = tk)) as [_|Hne]; [|contradiction].
  simpl. reflexivity.
Qed.

(** X5. A buy that brings the held quantity to exactly zero raises
    [ZeroDivisionError] out of [make_transaction]: the transaction is
    already in the log, the portfolio and the metrics are as before. *)
Theorem buy_to_zero_raises
    (yf_history : string -> nat -> option (list Q))
    (annualized_std : list Q -> float)
    (st : app_state) (t : transaction) (i : nat) (a : asset) :
  find_asset (tx_ticker t) (portfolio st) = Some (i, a) ->
  tx_type t = "buy" ->
  quantity a + tx_quantity t == 0 ->
  record_transaction yf_history annualized_std st t
  = (AppState (portfolio st) (transactions st ++ [t])%list (userdata st)
              (portfolio_metrics st),
     Raised ZeroDivisionError).
Proof.
  intros Hf Hb Hz. unfold record_transaction. simpl.
  rewrite (update_portfolio_buy _ t i a Hf Hb). unfold truediv.
  apply Qeq_bool_iff in Hz. rewrite Hz. reflexivity.
Qed.

Lemma buy_to_zero_raises_witness :
  find_asset (tx_ticker Scenario2.buy_to_zero) (portfolio Scenario.st_aapl)
    = Some (0%nat, Scenario.aapl)
  /\ tx_type Scenario2.buy_to_zero = "buy"
  /\ quantity Scenario.aapl + tx_quantity Scenario2.buy_to_zero == 0
  /\ record_transaction Offline.yf_history Offline.annualized_std
       Scenario.st_aapl Scenario2.buy_to_zero
     = (AppState [Scenario.aapl] [Scenario2.buy_to_zero] userdata0 None,
        Raised ZeroDivisionError).
Proof.
  assert (Hf : find_asset (tx_ticker Scenario2.buy_to_zero)
                 (portfolio Scenario.st_aapl) = Some (0%nat, Scenario.aapl))
    by reflexivity.
  assert (Hb : tx_type Scenario2.buy_to_zero = "buy") by reflexivity.
  assert (Hz : quantity Scenario.aapl + tx_quantity Scenario2.buy_to_zero == 0)
    by reflexivity.
  split; [exact Hf|]. split; [exact Hb|]. split; [exact Hz|].
  exact (buy_to_zero_raises Offline.yf_history Offline.annualized_std
           Scenario.st_aapl Scenario2.buy_to_zero 0%nat Scenario.aapl Hf Hb Hz).
Defined.

Lemma assign_status_ticker (a : asset) : ticker (assign_status a) = ticker a.
Proof. unfold assign_status. destruct (negb _); reflexivity. Qed.

Lemma assign_status_buy_price (a : asset) :
  buy_price (assign_status a) = buy_price a.
Proof. unfold assign_status. destruct (negb _); reflexivity. Qed.

Lemma assign_status_current_price (a : asset) :
  current_price (assign_status a) = current_price a.
Proof. unfold assign_status. destruct (negb _); reflexivity. Qed.

Lemma assign_status_risk (a : asset) : risk (assign_status a) = risk a.
Proof. unfold assign_status. destruct (negb _); reflexivity. Qed.

(** The asset of a ticker is found at the same index after it was
    rewritten in place and the statuses were refreshed. *)
Lemma find_asset_rewritten (tk : string) (pf : list asset) (i : nat)
    (a a' : asset) :
  find_asset tk pf = Some (i, a) -> ticker a' = tk ->
  find_asset tk (map assign_status (<[i := a']> pf))
  = Some (i, assign_status a').
Proof.
  intros Hf Ha'. apply find_asset_Some in Hf as (Hi & _ & Hfirst).
  unfold find_asset. apply list_find_Some. split; [|split].
  - change (map assign_status) with (fmap (M:=list) assign_status).
    rewrite list_lookup_fmap, list_lookup_insert_eq; [reflexivity|].
    apply lookup_lt_Some in Hi. exact Hi.
  - rewrite assign_status_ticker. exact Ha'.
  - intros j y Hj Hlt.
    change (map assign_status) with (fmap (M:=list) assign_status) in Hj.
    rewrite list_lookup_fmap, list_lookup_insert_ne in Hj by lia.
    destruct (pf !! j) as [z|] eqn:Hz; [|discriminate].
    injection Hj as <-. rewrite assign_status_ticker.
    apply (Hfirst j z Hz Hlt).
Qed.

Section RepeatedBuys.

Variable yf_history : string -> nat -> option (list Q).
Variable annualized_std : list Q -> float.

Lemma record_all_cons (st : app_state) (t : transaction) (ts : list transaction) :
  record_all yf_history annualized_std st (t :: ts)
  = record_all yf_history annualized_std
      (fst (record_transaction yf_history annualized_std st t)) ts.
Proof. reflexivity. Qed.

(** X6. After any number of buys of positive quantities on a held ticker,
    recorded one after the other, the asset is still at its index, its
    quantity is the held one plus all the bought ones, its buy price is
    the quantity-weighted mean of the old buy price and all the prices
    paid, and its current price is the one it had. *)
Theorem buys_accumulate (tk : string) (ts : list transaction)
    (st : app_state) (i : nat) (a : asset) :
  find_asset tk (portfolio st) = Some (i, a) ->
  0 < quantity a ->
  Forall (buy_of tk) ts ->
  exists a',
    find_asset tk (portfolio (record_all yf_history annualized_std st ts))
      = Some (i, a')
    /\ quantity a' == quantity a + total_quantity ts
    /\ buy_price a' == (quantity a * buy_price a + total_cost ts)
                       / (quantity a + total_quantity ts)
    /\ current_price a' = current_price a
    /\ transactions (record_all yf_history annualized_std st ts)
       = (transactions st ++ ts)%list.
Proof.
  intros Hf Hq Hall.
  (* the cost basis [quantity * buy_price] is what accumulates *)
  assert (Hgen : exists a',
    find_asset tk (portfolio (record_all yf_history annualized_std st ts))
      = Some (i, a')
    /\ quantity a' == quantity a + total_quantity ts
    /\ quantity a' * buy_price a'
       == quantity a * buy_price a + total_cost ts
    /\ current_price a' = current_price a
    /\ 0 < quantity a'
    /\ transactions (record_all yf_history annualized_std st ts)
       = (transactions st ++ ts)%list).
  { revert st a Hf Hq.
    induction Hall as [|t ts [Htk [Hb Hpos]] Hall IH]; intros st a Hf Hq.
    - exists a. simpl. split; [exact Hf|].
      split; [ring|]. split; [ring|].
      split; [reflexivity|]. split; [exact Hq|].
      rewrite app_nil_r. reflexivity.
    - assert (Hsum : 0 < quantity a + tx_quantity t).
      { rewrite <- (Qplus_0_l 0). apply Qplus_lt_le_compat; [exact Hq|].
        apply Qlt_le_weak. exact Hpos. }
      assert (Hnz : ~ quantity a + tx_quantity t == 0).
      { intros E. rewrite E in Hsum. apply (Qlt_irrefl _ Hsum). }
      set (a1 := Asset (ticker a) (quantity a + tx_quantity t)
                   ((quantity a * buy_price a + tx_quantity t * tx_price t)
                    / (quantity a + tx_quantity t))
                   (current_price a) (risk a) (status a)).
      assert (Hup : update_portfolio (portfolio st) t
                    = (<[i := a1]> (portfolio st), Returned tt)).
      { rewrite <- Htk in Hf. rewrite (update_portfolio_buy _ t i a Hf Hb).
        unfold truediv.
        destruct (Qeq_bool (quantity a + tx_quantity t) 0) eqn:E;
          [apply Qeq_bool_iff in E; contradiction | reflexivity]. }
      destruct (record_returned yf_history annualized_std st t _ Hup)
        as [_ Hp].
      set (st1 := fst (record_transaction yf_history annualized_std st t)) in *.
      assert (Hf1 : find_asset tk (portfolio st1) = Some (i, assign_status a1)).
      { rewrite Hp. apply (find_asset_rewritten tk _ i a); [exact Hf|].
        simpl. apply find_asset_Some in Hf as (_ & Ha & _). exact Ha. }
      assert (Hq1 : 0 < quantity (assign_status a1)).
      { rewrite assign_status_quantity. exact Hsum. }
      destruct (IH st1 (assign_status a1) Hf1 Hq1)
        as (a' & Hfa & Hqa & Hca & Hcur & Hpa & Hlog).
      exists a'. rewrite record_all_cons. fold st1.
      split; [exact Hfa|].
      rewrite assign_status_quantity in Hqa, Hca.
      rewrite assign_status_buy_price in Hca.
      rewrite assign_status_current_price in Hcur.
      cbn [quantity buy_price current_price a1] in Hqa, Hca, Hcur.
      change (total_quantity (t :: ts))
        with (tx_quantity t + total_quantity ts).
      change (total_cost (t :: ts))
        with (tx_quantity t * tx_price t + total_cost ts).
      split; [rewrite Hqa; ring|].
      split.
      { rewrite Hca, Qmult_div_r by exact Hnz. ring. }
      split; [exact Hcur|]. split; [exact Hpa|].
      rewrite Hlog. unfold st1. rewrite record_transactions.
      rewrite <- app_assoc. reflexivity. }
  destruct Hgen as (a' & Hfa & Hqa & Hca & Hcur & Hpa & Hlog).
  exists a'. split; [exact Hfa|]. split; [exact Hqa|].
  split; [|split; [exact Hcur | exact Hlog]].
  assert (Hnz : ~ quantity a' == 0).
  { intros E. rewrite E in Hpa. apply (Qlt_irrefl _ Hpa). }
  rewrite <- Hca, <- Hqa.
  rewrite (Qmult_comm (quantity a')). rewrite Qdiv_mult_l by exact Hnz.
  reflexivity.
Qed.

End RepeatedBuys.

Lemma buys_accumulate_witness :
  find_asset "AAPL" (portfolio Scenario.st_aapl) = Some (0%nat, Scenario.aapl)
  /\ 0 < quantity Scenario.aapl
  /\ exists a',
       find_asset "AAPL"
         (portfolio (record_all Offline.yf_history Offline.annualized_std
                       Scenario.st_aapl [Scenario.buy_more; Scenario.buy_more]))
         = Some (0%nat, a')
       /\ quantity a' == 20
       /\ buy_price a' == 155.
Proof.
  assert (Hf : find_asset "AAPL" (portfolio Scenario.st_aapl)
               = Some (0%nat, Scenario.aapl)) by reflexivity.
  assert (Hq : 0 < quantity Scenario.aapl) by reflexivity.
  destruct (buys_accumulate Offline.yf_history Offline.annualized_std
              "AAPL" [Scenario.buy_more; Scenario.buy_more]
              Scenario.st_aapl 0%nat Scenario.aapl Hf Hq)
    as (a' & Hfa & Hqa & Hba & _).
  { repeat (apply Forall_cons; split;
            [split; [reflexivity | split; reflexivity]|]).
    apply Forall_nil_2. }
  split; [exact Hf|]. split; [exact Hq|].
  exists a'. split; [exact Hfa|].
  split.
  - rewrite Hqa. reflexivity.
  - rewrite Hba. reflexivity.
Defined.

(** ** The sorted views of the metrics *)

Section SortedViews.

Context {A : Type} (key : A -> Q).

Lemma insert_desc_perm (x : A) (l : list A) : insert_desc key x l ≡ₚ x :: l.
Proof.
  induction l as [|y l IH]; simpl; [reflexivity|].
  destruct (Qle_bool (key y) (key x)); [reflexivity|].
  rewrite IH. apply Permutation_swap.
Qed.

Lemma sorted_desc_perm (l : list A) : sorted_desc key l ≡ₚ l.
Proof.
  induction l as [|x l IH]; simpl; [reflexivity|].
  unfold sorted_desc in *. simpl. rewrite insert_desc_perm, IH. reflexivity.
Qed.

Lemma insert_desc_sorted (x : A) (l : list A) :
  StronglySorted (desc key) l -> StronglySorted (desc key) (insert_desc key x l).
Proof.
  induction 1 as [|y l Hs IH Hy]; simpl.
  - apply SSorted_cons; [apply SSorted_nil | apply Forall_nil_2].
  - destruct (Qle_bool (key y) (key x)) eqn:E.
    + apply Qle_bool_iff in E.
      apply SSorted_cons; [apply SSorted_cons; assumption|].
      apply Forall_cons. split; [exact E|].
      eapply Forall_impl; [exact Hy|].
      intros z Hz. unfold desc in *. apply (Qle_trans _ _ _ Hz E).
    + apply SSorted_cons; [exact IH|].
      rewrite insert_desc_perm. apply Forall_cons. split; [|exact Hy].
      unfold desc. apply Qlt_le_weak, Qnot_le_lt.
      intros Hle. apply Qle_bool_iff in Hle. congruence.
Qed.

Lemma sorted_desc_sorted (l : list A) : StronglySorted (desc key) (sorted_desc key l).
Proof.
  induction l as [|x l IH]; [apply SSorted_nil|].
  apply insert_desc_sorted. exact IH.
Qed.

(** Stability: among the elements whose key is [v], the order of the input
    is kept. *)
Lemma insert_desc_stable (v : Q) (x : A) (l : list A) :
  List.filter (fun a => Qeq_bool (key a) v) (insert_desc key x l)
  = List.filter (fun a => Qeq_bool (key a) v) (x :: l).
Proof.
  induction l as [|y l IH]; [reflexivity|].
  simpl. destruct (Qle_bool (key y) (key x)) eqn:E; [reflexivity|].
  simpl in *. rewrite IH.
  destruct (Qeq_bool (key x) v) eqn:Ex; [|reflexivity].
  destruct (Qeq_bool (key y) v) eqn:Ey; [|reflexivity].
  exfalso. apply Qeq_bool_iff in Ex, Ey.
  assert (Hle : key y <= key x) by (rewrite Ex, Ey; apply Qle_refl).
  apply Qle_bool_iff in Hle. congruence.
Qed.

Lemma sorted_desc_stable (v : Q) (l : list A) :
  List.filter (fun a => Qeq_bool (key a) v) (sorted_desc key l)
  = List.filter (fun a => Qeq_bool (key a) v) l.
Proof.
  induction l as [|x l IH]; [reflexivity|].
  change (sorted_desc key (x :: l)) with (insert_desc key x (sorted_desc key l)).
  rewrite insert_desc_stable. simpl. rewrite IH. reflexivity.
Qed.

End SortedViews.

(** An ascending sort is the descending sort of the opposite key. *)
Lemma sorted_asc_opp {A : Type} (key : A -> Q) (l : list A) :
  sorted_asc key l = sorted_desc (fun a => - key a) l.
Proof.
  unfold sorted_asc, sorted_desc.
  induction l as [|x l IH]; [reflexivity|]. simpl. rewrite IH.
  generalize (foldr (insert_desc (fun a => - key a)) [] l). intros s.
  induction s as [|y s IHs]; [reflexivity|]. simpl.
  assert (E : Qle_bool (key x) (key y) = Qle_bool (- key y) (- key x)).
  { destruct (Qle_bool (key x) (key y)) eqn:E1;
      destruct (Qle_bool (- key y) (- key x)) eqn:E2; try reflexivity.
    - apply Qle_bool_iff, Qopp_le_compat, Qle_bool_iff in E1. congruence.
    - apply Qle_bool_iff, Qopp_le_compat in E2. rewrite !Qopp_involutive in E2.
      apply Qle_bool_iff in E2. congruence. }
  rewrite E. destruct (Qle_bool (- key y) (- key x)); [reflexivity|].
  rewrite IHs. reflexivity.
Qed.

Lemma sorted_asc_perm {A : Type} (key : A -> Q) (l : list A) :
  sorted_asc key l ≡ₚ l.
Proof. rewrite sorted_asc_opp. apply sorted_desc_perm. Qed.

Lemma sorted_asc_sorted {A : Type} (key : A -> Q) (l : list A) :
  StronglySorted (asc key) (sorted_asc key l).
Proof.
  rewrite sorted_asc_opp.
  pose proof (sorted_desc_sorted (fun a => - key a) l) as H.
  induction H as [|x s Hs IH Hx]; [apply SSorted_nil|].
  apply SSorted_cons; [exact IH|].
  eapply Forall_impl; [exact Hx|].
  intros y Hy. unfold desc, asc in *. simpl in Hy.
  apply Qopp_le_compat in Hy. rewrite !Qopp_involutive in Hy. exact Hy.
Qed.

Lemma sorted_asc_stable {A : Type} (key : A -> Q) (v : Q) (l : list A) :
  List.filter (fun a => Qeq_bool (key a) v) (sorted_asc key l)
  = List.filter (fun a => Qeq_bool (key a) v) l.
Proof.
  assert (E : forall a, Qeq_bool (key a) v = Qeq_bool (- key a) (- v)).
  { intros a.
    destruct (Qeq_bool (key a) v) eqn:E1;
      destruct (Qeq_bool (- key a) (- v)) eqn:E2; try reflexivity.
    - apply Qeq_bool_iff in E1.
      assert (H : - key a == - v) by (rewrite E1; reflexivity).
      apply Qeq_bool_iff in H. congruence.
    - apply Qeq_bool_iff in E2.
      assert (H : key a == v).
      { rewrite <- (Qopp_involutive (key a)), E2. apply Qopp_involutive. }
      apply Qeq_bool_iff in H. congruence. }
  rewrite !(List.filter_ext _ _ E), sorted_asc_opp.
  apply (sorted_desc_stable (fun a => - key a)).
Qed.

Section Views.

Variable yf_history : string -> nat -> option (list Q).
Variable annualized_std : list Q -> float.
Variable portfolio_list : list asset.
Variable preferences : option (dict string).

Local Abbreviation refs := (seq 0 (length portfolio_list)).
Local Abbreviation by_return := (key_of portfolio_list percent_return).
Local Abbreviation by_pnl := (key_of portfolio_list unrealized_pl).
Local Abbreviation by_risk :=
  (key_of portfolio_list (risk_score yf_history annualized_std)).
Local Abbreviation high_first :=
  (dict_get "order" (default [("order", "HtoLrisk")] preferences)
   = Some "HtoLrisk").

Lemma sorted_by_risk_eq :
  sorted_by_risk (fst (recalculate_portfolio yf_history annualized_std
                                             portfolio_list preferences))
  = if decide high_first then sorted_desc by_risk refs
    else sorted_asc by_risk refs.
Proof. unfold recalculate_portfolio. destruct preferences; reflexivity. Qed.

(** X7. Each of the three sorted views lists every asset of the portfolio
    exactly once. *)
Theorem views_are_permutations :
  let m := fst (recalculate_portfolio yf_history annualized_std
                                      portfolio_list preferences) in
  sorted_by_return m ≡ₚ refs
  /\ sorted_by_pnl m ≡ₚ refs
  /\ sorted_by_risk m ≡ₚ refs.
Proof.
  intros m. subst m.
  split; [apply sorted_desc_perm|]. split; [apply sorted_desc_perm|].
  rewrite sorted_by_risk_eq.
  destruct (decide high_first); [apply sorted_desc_perm | apply sorted_asc_perm].
Qed.

(** X8. The view by return is in descending order of the percent return
    and the view by P&L in descending order of the unrealized P&L; the view
    by risk is in descending order of the risk score when the preference
    ["order"] is exactly ["HtoLrisk"] and in ascending order for any other
    value. *)
Theorem views_are_sorted :
  let m := fst (recalculate_portfolio yf_history annualized_std
                                      portfolio_list preferences) in
  StronglySorted (desc by_return) (sorted_by_return m)
  /\ StronglySorted (desc by_pnl) (sorted_by_pnl m)
  /\ (high_first /\ StronglySorted (desc by_risk) (sorted_by_risk m)
      \/ ~ high_first /\ StronglySorted (asc by_risk) (sorted_by_risk m)).
Proof.
  intros m. subst m.
  split; [apply sorted_desc_sorted|]. split; [apply sorted_desc_sorted|].
  rewrite sorted_by_risk_eq.
  destruct (decide high_first) as [H|H].
  - left. split; [exact H | apply sorted_desc_sorted].
  - right. split; [exact H | apply sorted_asc_sorted].
Qed.

(** X9. The three sorts are stable: in each view the assets that share a
    key value come in the order they have in the portfolio. *)
Theorem views_are_stable (v : Q) :
  let m := fst (recalculate_portfolio yf_history annualized_std
                                      portfolio_list preferences) in
  List.filter (fun r => Qeq_bool (by_return r) v) (sorted_by_return m)
    = List.filter (fun r => Qeq_bool (by_return r) v) refs
  /\ List.filter (fun r => Qeq_bool (by_pnl r) v) (sorted_by_pnl m)
     = List.filter (fun r => Qeq_bool (by_pnl r) v) refs
  /\ List.filter (fun r => Qeq_bool (by_risk r) v) (sorted_by_risk m)
     = List.filter (fun r => Qeq_bool (by_risk r) v) refs.
Proof.
  intros m. subst m.
  split; [apply (sorted_desc_stable by_return)|].
  split; [apply (sorted_desc_stable by_pnl)|].
  rewrite sorted_by_risk_eq.
  destruct (decide high_first);
    [apply (sorted_desc_stable by_risk) | apply (sorted_asc_stable by_risk)].
Qed.

End Views.

Lemma strongly_sorted_head {A : Type} (R : A -> A -> Prop) (x : A) (l : list A) :
  StronglySorted R (x :: l) -> forall y, y ∈ l -> R x y.
Proof.
  intros H y Hy. apply StronglySorted_inv in H as [_ H].
  rewrite Forall_forall in H. apply H, Hy.
Qed.

Lemma strongly_sorted_last {A : Type} (R : A -> A -> Prop) (l : list A) (x : A) :
  StronglySorted R (l ++ [x]) -> forall y, y ∈ l -> R y x.
Proof.
  induction l as [|z l IH]; intros H y Hy; [inversion Hy|].
  simpl in H. apply StronglySorted_inv in H as [Hs Hz].
  apply elem_of_cons in Hy as [->|Hy].
  - rewrite Forall_forall in Hz. apply Hz, elem_of_app. right. left.
  - apply IH; assumption.
Qed.

Section BestAndWorst.

Variable yf_history : string -> nat -> option (list Q).
Variable annualized_std : list Q -> float.
Variable portfolio_list : list asset.
Variable preferences : option (dict string).

Local Abbreviation by_return := (key_of portfolio_list percent_return).

(** X10. [top_3_best] holds the first three assets of the view by return,
    all of them when there are fewer; its first asset has the largest
    percent return of the portfolio.  [worst] is absent exactly for the
    empty portfolio, and otherwise is an asset with the smallest percent
    return. *)
Theorem best_and_worst :
  let m := fst (recalculate_portfolio yf_history annualized_std
                                      portfolio_list preferences) in
  top_3_best m = take 3 (sorted_by_return m)
  /\ length (top_3_best m) = Nat.min 3 (length portfolio_list)
  /\ (forall b, top_3_best m !! 0%nat = Some b ->
        forall r, (r < length portfolio_list)%nat -> by_return r <= by_return b)
  /\ (worst m = None <-> portfolio_list = [])
  /\ (forall w, worst m = Some w ->
        (w < length portfolio_list)%nat
        /\ forall r, (r < length portfolio_list)%nat ->
                     by_return w <= by_return r).
Proof.
  intros m.
  assert (Hperm : sorted_by_return m ≡ₚ seq 0 (length portfolio_list))
    by apply sorted_desc_perm.
  assert (Hsort : StronglySorted (desc by_return) (sorted_by_return m))
    by apply sorted_desc_sorted.
  assert (Hlen : length (sorted_by_return m) = length portfolio_list).
  { rewrite Hperm. apply length_seq. }
  assert (Hin : forall r, (r < length portfolio_list)%nat ->
                          r ∈ sorted_by_return m).
  { intros r Hr. rewrite Hperm. apply elem_of_seq. lia. }
  assert (Htop : top_3_best m = take 3 (sorted_by_return m)).
  { change (top_3_best m)
      with (if (3 <=? length (sorted_by_return m))%nat
            then take 3 (sorted_by_return m) else sorted_by_return m).
    destruct (Nat.leb_spec 3 (length (sorted_by_return m))) as [H|H];
      [reflexivity|].
    rewrite take_ge; [reflexivity | lia]. }
  split; [exact Htop|]. split; [rewrite Htop, length_take, Hlen; reflexivity|].
  split; [|split].
  - intros b Hb r Hr. rewrite Htop in Hb.
    destruct (sorted_by_return m) as [|x s] eqn:Hs; [discriminate|].
    simpl in Hb. injection Hb as <-.
    specialize (Hin r Hr). apply elem_of_cons in Hin as [->|Hin];
      [apply Qle_refl|].
    apply (strongly_sorted_head _ _ _ Hsort r Hin).
  - change (worst m) with (last (sorted_by_return m)).
    rewrite last_None. split.
    + intros H. rewrite H in Hlen. destruct portfolio_list; [reflexivity|].
      discriminate.
    + intros H. apply length_zero_iff_nil. rewrite Hlen, H. reflexivity.
  - change (worst m) with (last (sorted_by_return m)).
    intros w Hw. apply last_Some in Hw as [s Hs].
    split.
    + assert (Hw : w ∈ sorted_by_return m)
        by (rewrite Hs; apply elem_of_app; right; left).
      rewrite Hperm in Hw. apply elem_of_seq in Hw. lia.
    + intros r Hr. specialize (Hin r Hr). rewrite Hs in Hin, Hsort.
      apply elem_of_app in Hin as [Hin|Hin].
      * apply (strongly_sorted_last _ _ _ Hsort r Hin).
      * apply list_elem_of_singleton in Hin. subst r. apply Qle_refl.
Qed.

End BestAndWorst.

(** ** Refreshing the metrics twice *)

Lemma percent_return_assign_status (a : asset) :
  percent_return (assign_status a) = percent_return a.
Proof. unfold assign_status. destruct (negb _); reflexivity. Qed.

Lemma assign_status_idem (a : asset) :
  assign_status (assign_status a) = assign_status a.
Proof.
  unfold assign_status at 1. rewrite percent_return_assign_status.
  unfold assign_status. destruct (negb _); reflexivity.
Qed.

Lemma market_value_assign_status (a : asset) :
  market_value (assign_status a) = market_value a.
Proof. unfold assign_status. destruct (negb _); reflexivity. Qed.

Lemma unrealized_pl_assign_status (a : asset) :
  unrealized_pl (assign_status a) = unrealized_pl a.
Proof. unfold assign_status. destruct (negb _); reflexivity. Qed.

Lemma sorted_desc_ext {A : Type} (k k' : A -> Q) (l : list A) :
  (forall x, k x = k' x) -> sorted_desc k l = sorted_desc k' l.
Proof.
  intros E. unfold sorted_desc. induction l as [|x l IH]; [reflexivity|].
  simpl. rewrite IH. generalize (foldr (insert_desc k') [] l). intros s.
  induction s as [|y s IHs]; [reflexivity|].
  simpl. rewrite !E, IHs. reflexivity.
Qed.

Lemma sorted_asc_ext {A : Type} (k k' : A -> Q) (l : list A) :
  (forall x, k x = k' x) -> sorted_asc k l = sorted_asc k' l.
Proof.
  intros E. rewrite !sorted_asc_opp. apply sorted_desc_ext.
  intros x. rewrite E. reflexivity.
Qed.

Lemma key_of_assign_status (l : list asset) (f : asset -> Q) (r : ref) :
  (forall a, f (assign_status a) = f a) ->
  key_of (map assign_status l) f r = key_of l f r.
Proof.
  intros Hf. unfold key_of, ref in *.
  change (map assign_status l) with (assign_status <$> l).
  rewrite list_lookup_fmap. destruct (l !! r); simpl; [apply Hf | reflexivity].
Qed.

Lemma summary_assign_status (l : list asset) (r : ref) :
  summary (map assign_status l) r = summary l r.
Proof.
  unfold summary, ref in *. change (map assign_status l) with (assign_status <$> l).
  rewrite list_lookup_fmap. destruct (l !! r) as [a|]; simpl; [|reflexivity].
  rewrite assign_status_ticker, assign_status_buy_price,
    assign_status_current_price. reflexivity.
Qed.

(** X11. Recalculating the metrics of a portfolio that was just
    recalculated changes nothing: the same metrics come out and the list is
    left as it is.  So does a second [refresh_portfolio_metrics]. *)
Theorem refresh_twice
    (yf_history : string -> nat -> option (list Q))
    (annualized_std : list Q -> float)
    (l : list asset) (p : option (dict string)) (st : app_state) :
  recalculate_portfolio yf_history annualized_std
    (snd (recalculate_portfolio yf_history annualized_std l p)) p
  = recalculate_portfolio yf_history annualized_std l p
  /\ refresh_portfolio_metrics yf_history annualized_std
       (refresh_portfolio_metrics yf_history annualized_std st)
     = refresh_portfolio_metrics yf_history annualized_std st.
Proof.
  assert (Hre : forall l p,
    recalculate_portfolio yf_history annualized_std (map assign_status l) p
    = recalculate_portfolio yf_history annualized_std l p).
  { clear. intros l p. unfold recalculate_portfolio.
    rewrite length_map.
    assert (Hret : forall r, key_of (map assign_status l) percent_return r
                             = key_of l percent_return r)
      by (intros r; apply key_of_assign_status, percent_return_assign_status).
    assert (Hpnl : forall r, key_of (map assign_status l) unrealized_pl r
                             = key_of l unrealized_pl r)
      by (intros r; apply key_of_assign_status, unrealized_pl_assign_status).
    assert (Hrisk : forall r,
              key_of (map assign_status l)
                     (risk_score yf_history annualized_std) r
              = key_of l (risk_score yf_history annualized_std) r).
    { intros r. apply key_of_assign_status. intros a.
      unfold risk_score, classify_risk. rewrite assign_status_ticker.
      reflexivity. }
    rewrite (sorted_desc_ext _ _ _ Hret), (sorted_desc_ext _ _ _ Hpnl),
      (sorted_desc_ext _ _ _ Hrisk), (sorted_asc_ext _ _ _ Hrisk).
    assert (Hmv : map market_value (map assign_status l) = map market_value l).
    { rewrite map_map. apply map_ext. apply market_value_assign_status. }
    rewrite Hmv.
    assert (Hsum : forall rs : list ref, omap (summary (map assign_status l)) rs
                              = omap (summary l) rs).
    { intros rs. apply list_omap_ext, Forall2_same_length_lookup_2;
        [reflexivity|].
      intros i x y Hx Hy. rewrite Hx in Hy. injection Hy as <-.
      apply summary_assign_status. }
    rewrite !Hsum.
    assert (Hw : forall o : option ref,
              o ≫= summary (map assign_status l) = o ≫= summary l).
    { intros [r|]; simpl; [apply summary_assign_status | reflexivity]. }
    rewrite Hw.
    assert (Hp : forall rs : list ref,
      omap (fun r => (fun a => (ticker a, unrealized_pl a))
                       <$> map assign_status l !! r) rs
      = omap (fun r => (fun a => (ticker a, unrealized_pl a)) <$> l !! r) rs).
    { intros rs. apply list_omap_ext, Forall2_same_length_lookup_2;
        [reflexivity|].
      intros i r y Hx Hy. rewrite Hx in Hy. injection Hy as <-.
      unfold ref in *.
      change (map assign_status l) with (assign_status <$> l).
      rewrite list_lookup_fmap. destruct (l !! r) as [a|]; simpl; [|reflexivity].
      rewrite assign_status_ticker, unrealized_pl_assign_status. reflexivity. }
    rewrite Hp.
    f_equal. rewrite map_map. apply map_ext. apply assign_status_idem. }
  split.
  - rewrite recalculate_portfolio_list. apply Hre.
  - assert (Heq : forall s,
      refresh_portfolio_metrics yf_history annualized_std s
      = AppState
          (snd (recalculate_portfolio yf_history annualized_std
                  (portfolio s) (Some (preferences s))))
          (transactions s) (userdata s)
          (Some (fst (recalculate_portfolio yf_history annualized_std
                        (portfolio s) (Some (preferences s)))))).
    { intros s. unfold refresh_portfolio_metrics.
      destruct (recalculate_portfolio _ _ _ _); reflexivity. }
    rewrite (Heq (refresh_portfolio_metrics yf_history annualized_std st)).
    rewrite !(Heq st).
    cbn [portfolio transactions userdata].
    change (preferences (AppState _ _ (userdata st) _)) with (preferences st).
    rewrite (recalculate_portfolio_list yf_history annualized_std
               (portfolio st) (Some (preferences st))).
    rewrite Hre. rewrite recalculate_portfolio_list. reflexivity.
Qed.

(** ** Opening and closing a position *)

Lemma find_asset_assign_status (tk : string) (pf : list asset) (i : nat)
    (a : asset) :
  find_asset tk pf = Some (i, a) ->
  find_asset tk (map assign_status pf) = Some (i, assign_status a).
Proof.
  intros Hf. pose proof (find_asset_Some _ _ _ _ Hf) as (Hi & Htk & _).
  rewrite <- (list_insert_id pf i a Hi) at 1.
  apply (find_asset_rewritten tk pf i a a Hf Htk).
Qed.

(** X4. A transaction on an unheld ticker followed by a sell of at least
    the quantity it brought, each through the whole of [make_transaction]:
    the two are in the log, and the portfolio holds the assets of before
    the two, with the status that the refresh writes.  A portfolio whose
    statuses were up to date is back exactly as it was. *)
Theorem open_then_close
    (yf_history : string -> nat -> option (list Q))
    (annualized_std : list Q -> float)
    (st : app_state) (b s : transaction) :
  find_asset (tx_ticker b) (portfolio st) = None ->
  tx_type s = "sell" ->
  tx_ticker s = tx_ticker b ->
  tx_quantity b <= tx_quantity s ->
  let after := record_all yf_history annualized_std st [b; s] in
  transactions after = (transactions st ++ [b; s])%list
  /\ portfolio after = map assign_status (portfolio st)
  /\ (map assign_status (portfolio st) = portfolio st ->
        portfolio after = portfolio st).
Proof.
  intros Hf Hs Htk Hq after. subst after.
  rewrite !record_all_cons.
  change (record_all yf_history annualized_std ?x []) with x.
  set (st1 := fst (record_transaction yf_history annualized_std st b)).
  set (new := Asset (tx_ticker b) (tx_quantity b) (tx_price b) (tx_price b)
                    "OPTIMAL" None).
  assert (Hp1 : portfolio st1 = map assign_status (portfolio st ++ [new])).
  { apply (record_returned yf_history annualized_std st b).
    apply update_portfolio_new. exact Hf. }
  assert (Hf1 : find_asset (tx_ticker s) (portfolio st1)
                = Some (length (portfolio st), assign_status new)).
  { rewrite Hp1, Htk. apply find_asset_assign_status.
    apply find_asset_app_new; [exact Hf | reflexivity]. }
  assert (Hle : Qle_bool (quantity (assign_status new) - tx_quantity s) 0 = true).
  { rewrite assign_status_quantity. simpl.
    apply Qle_bool_iff. apply (Qplus_le_l _ _ (tx_quantity s)).
    rewrite Qplus_0_l. unfold Qminus. rewrite <- Qplus_assoc.
    rewrite (Qplus_comm (- tx_quantity s)), Qplus_opp_r, Qplus_0_r. exact Hq. }
  assert (Hup : update_portfolio (portfolio st1) s
                = (delete (length (portfolio st)) (portfolio st1), Returned tt)).
  { rewrite (update_portfolio_sell _ s _ _ Hf1 Hs), Hle. reflexivity. }
  assert (Hp2 : portfolio (fst (record_transaction yf_history annualized_std
                                  st1 s))
                = map assign_status (portfolio st)).
  { rewrite (proj2 (record_returned yf_history annualized_std st1 s _ Hup)).
    rewrite Hp1, map_app. simpl.
    rewrite <- (length_map assign_status (portfolio st)).
    rewrite (delete_middle (map assign_status (portfolio st)) []), app_nil_r.
    rewrite map_map. apply map_ext. intros a. apply assign_status_idem. }
  split; [|split].
  - rewrite record_transactions. unfold st1. rewrite record_transactions.
    rewrite <- app_assoc. reflexivity.
  - exact Hp2.
  - intros Heq. rewrite Hp2. exact Heq.
Qed.

Lemma open_then_close_witness :
  find_asset (tx_ticker Scenario2.buy_msft) (portfolio Scenario.st0) = None
  /\ tx_type Scenario2.sell_msft = "sell"
  /\ tx_ticker Scenario2.sell_msft = tx_ticker Scenario2.buy_msft
  /\ tx_quantity Scenario2.buy_msft <= tx_quantity Scenario2.sell_msft
  /\ portfolio (record_all Offline.yf_history Offline.annualized_std
                  Scenario.st0 [Scenario2.buy_msft; Scenario2.sell_msft])
     = map assign_status (portfolio Scenario.st0).
Proof.
  assert (Hf : find_asset (tx_ticker Scenario2.buy_msft)
                 (portfolio Scenario.st0) = None) by reflexivity.
  assert (Hs : tx_type Scenario2.sell_msft = "sell") by reflexivity.
  assert (Htk : tx_ticker Scenario2.sell_msft = tx_ticker Scenario2.buy_msft)
    by reflexivity.
  assert (Hq : tx_quantity Scenario2.buy_msft <= tx_quantity Scenario2.sell_msft)
    by (vm_compute; discriminate).
  split; [exact Hf|]. split; [exact Hs|]. split; [exact Htk|]. split; [exact Hq|].
  exact (proj1 (proj2 (open_then_close Offline.yf_history Offline.annualized_std
                         Scenario.st0 Scenario2.buy_msft Scenario2.sell_msft
                         Hf Hs Htk Hq))).
Defined.

(** ** The risk score *)

Lemma risk_weight_values :
  RISK_WEIGHT !! "HIGH" = Some 3 /\ RISK_WEIGHT !! "OPTIMAL" = Some 2
  /\ RISK_WEIGHT !! "LOW" = Some 1 /\ RISK_WEIGHT !! "UNKNOWN" = None.
Proof. repeat split; reflexivity. Qed.

(** X12. The risk score is 1, 2 or 3 and grows with the volatility: of two
    assets whose volatility is a number, the one with the larger
    volatility never has the smaller score.  An asset without a
    volatility scores 2, as an ["OPTIMAL"] one does; an asset whose
    volatility is NaN scores 1, and so does every asset with exactly two
    closes on record. *)
Theorem risk_score_monotone
    (yf_history : string -> nat -> option (list Q))
    (annualized_std : list Q -> float) :
  (forall a b va vb,
     volatility yf_history annualized_std (ticker a) 60 = Some (Num va) ->
     volatility yf_history annualized_std (ticker b) 60 = Some (Num vb) ->
     va <= vb ->
     risk_score yf_history annualized_std a
     <= risk_score yf_history annualized_std b)
  /\ (forall c, volatility yf_history annualized_std (ticker c) 60 = None ->
                risk_score yf_history annualized_std c = 2)
  /\ (forall c, volatility yf_history annualized_std (ticker c) 60 = Some NaN ->
                risk_score yf_history annualized_std c = 1)
  /\ (forall c data,
        yf_history (normalize_ticker (ticker c)) 60%nat = Some data ->
        length data = 2%nat ->
        risk_score yf_history annualized_std c = 1)
  /\ (forall c, risk_score yf_history annualized_std c = 1
                \/ risk_score yf_history annualized_std c = 2
                \/ risk_score yf_history annualized_std c = 3).
Proof.
  destruct risk_weight_values as (Hh & Ho & Hl & Hu).
  assert (Hnan : forall c,
            volatility yf_history annualized_std (ticker c) 60 = Some NaN ->
            risk_score yf_history annualized_std c = 1).
  { intros c Hc. unfold risk_score, classify_risk. rewrite Hc. simpl.
    rewrite Hl. reflexivity. }
  split; [|split; [|split; [exact Hnan|split]]].
  - intros a b va vb Ha Hb Hle.
    unfold risk_score, classify_risk. rewrite Ha, Hb.
    destruct (classify_vol_cases va) as [[A1 ->] | [(A1 & A2 & ->) | [A1 ->]]];
      destruct (classify_vol_cases vb) as [[B1 ->] | [(B1 & B2 & ->) | [B1 ->]]];
      rewrite ?Hh, ?Ho, ?Hl; simpl; try discriminate.
    + exfalso. apply (Qlt_not_le _ _ A1). apply (Qle_trans _ _ _ Hle B2).
    + exfalso. apply (Qlt_not_le _ _ A1).
      apply (Qle_trans _ _ _ Hle). apply (Qle_trans _ _ _ B1). discriminate.
    + exfalso. apply (Qlt_not_le _ _ A1). apply (Qle_trans _ _ _ Hle B1).
  - intros c Hc. unfold risk_score, classify_risk. rewrite Hc. simpl.
    rewrite Hu. reflexivity.
  - intros c data Hd Hlen. apply Hnan.
    unfold volatility, returns_std. rewrite Hd, Hlen. reflexivity.
  - intros c. unfold risk_score, classify_risk.
    destruct (volatility yf_history annualized_std (ticker c) 60) as [[v|]|].
    + destruct (classify_vol_cases v) as [[_ ->] | [(_ & _ & ->) | [_ ->]]];
        rewrite ?Hh, ?Ho, ?Hl; simpl; auto.
    + simpl. rewrite Hl. auto.
    + simpl. rewrite Hu. auto.
Qed.

(** ** Ticker normalization *)

Lemma upper_ascii_idem (c : ascii) : upper_ascii (upper_ascii c) = upper_ascii c.
Proof. destruct c as [[] [] [] [] [] [] [] []]; reflexivity. Qed.

Lemma upper_lower_ascii (c : ascii) : upper_ascii (lower_ascii c) = upper_ascii c.
Proof. destruct c as [[] [] [] [] [] [] [] []]; reflexivity. Qed.

Lemma is_space_upper_ascii (c : ascii) : is_space (upper_ascii c) = is_space c.
Proof. destruct c as [[] [] [] [] [] [] [] []]; reflexivity. Qed.

Lemma upper_idem (s : string) : upper (upper s) = upper s.
Proof.
  induction s as [|c s IH]; [reflexivity|].
  simpl. rewrite upper_ascii_idem, IH. reflexivity.
Qed.

Lemma upper_lower (s : string) : upper (lower s) = upper s.
Proof.
  induction s as [|c s IH]; [reflexivity|].
  simpl. rewrite upper_lower_ascii, IH. reflexivity.
Qed.

Lemma lstrip_upper (s : string) : lstrip (upper s) = upper (lstrip s).
Proof.
  induction s as [|c s IH]; [reflexivity|].
  simpl. rewrite is_space_upper_ascii.
  destruct (is_space c); [exact IH | reflexivity].
Qed.

Lemma rstrip_upper (s : string) : rstrip (upper s) = upper (rstrip s).
Proof.
  induction s as [|c s IH]; [reflexivity|].
  simpl. rewrite IH, is_space_upper_ascii.
  destruct (rstrip s); simpl; [destruct (is_space c)|]; reflexivity.
Qed.

Lemma strip_upper (s : string) : strip (upper s) = upper (strip s).
Proof. unfold strip. rewrite lstrip_upper, rstrip_upper. reflexivity. Qed.

Lemma rstrip_idem (s : string) : rstrip (rstrip s) = rstrip s.
Proof.
  induction s as [|c s IH]; [reflexivity|].
  simpl. destruct (rstrip s) as [|d r] eqn:E.
  - destruct (is_space c) eqn:Ec; [reflexivity|]. simpl. rewrite Ec. reflexivity.
  - simpl in *. rewrite IH. reflexivity.
Qed.

(** A string that does not start with a space. *)
Lemma lstrip_fixed (s : string) :
  match s with
  | EmptyString => True
  | String c _ => is_space c = false
  end -> lstrip s = s.
Proof. destruct s as [|c s]; [reflexivity|]. simpl. intros ->. reflexivity. Qed.

Lemma lstrip_no_space (s : string) :
  match lstrip s with
  | EmptyString => True
  | String c _ => is_space c = false
  end.
Proof.
  induction s as [|c s IH]; [exact I|].
  simpl. destruct (is_space c) eqn:E; [exact IH | exact E].
Qed.

Lemma rstrip_no_space (s : string) :
  match s with
  | EmptyString => True
  | String c _ => is_space c = false
  end ->
  match rstrip s with
  | EmptyString => True
  | String c _ => is_space c = false
  end.
Proof.
  destruct s as [|c s]; [intros _; exact I|].
  intros Hc. simpl. destruct (rstrip s); [rewrite Hc|]; exact Hc.
Qed.

Lemma strip_idem (s : string) : strip (strip s) = strip s.
Proof.
  unfold strip.
  rewrite (lstrip_fixed (rstrip (lstrip s)));
    [apply rstrip_idem | apply rstrip_no_space, lstrip_no_space].
Qed.

Lemma ticker_mapping_values (k v : string) :
  TICKER_MAPPING !! k = Some v -> normalize_ticker v = v.
Proof.
  unfold TICKER_MAPPING. intros H.
  apply elem_of_list_to_map_2 in H.
  repeat (apply elem_of_cons in H as [H|H];
          [injection H as -> ->; reflexivity|]).
  inversion H.
Qed.

(** X13. For a ticker of ASCII characters, [normalize_ticker] gives the
    same symbol whatever the letter case of the ticker and the white space
    around it, and normalizing a normalized symbol changes nothing. *)
Theorem normalize_ticker_canonical (t : string) :
  is_ascii t = true ->
  normalize_ticker (normalize_ticker t) = normalize_ticker t
  /\ normalize_ticker (lower t) = normalize_ticker t
  /\ normalize_ticker (upper t) = normalize_ticker t
  /\ normalize_ticker (strip t) = normalize_ticker t.
Proof.
  intros _.
  split; [|split; [|split]].
  - unfold normalize_ticker at 2 3.
    destruct (TICKER_MAPPING !! strip (upper t)) as [v|] eqn:E; simpl.
    + apply (ticker_mapping_values _ _ E).
    + unfold normalize_ticker.
      rewrite strip_upper, strip_idem, <- strip_upper, upper_idem, E.
      reflexivity.
  - unfold normalize_ticker. rewrite upper_lower. reflexivity.
  - unfold normalize_ticker. rewrite upper_idem. reflexivity.
  - unfold normalize_ticker. rewrite <- strip_upper, strip_idem. reflexivity.
Qed.

Lemma normalize_ticker_canonical_witness :
  is_ascii " btc " = true
  /\ normalize_ticker " btc " = "BTC-USD"
  /\ normalize_ticker (normalize_ticker " btc ") = normalize_ticker " btc "
  /\ normalize_ticker (upper " btc ") = normalize_ticker " btc ".
Proof.
  assert (H : is_ascii " btc " = true) by reflexivity.
  destruct (normalize_ticker_canonical " btc " H) as (H1 & _ & H3 & _).
  split; [exact H|]. split; [reflexivity|]. split; [exact H1 | exact H3].
Defined.

(** ** The master key *)

Import Keys.

Lemma append_tmp_differs (s : string) : (s ++ ".tmp")%string <> s.
Proof.
  induction s as [|c s IH]; simpl; [discriminate|].
  intros H. injection H as H. exact (IH H).
Qed.

Section KeyFile.

Variable default_mode : N.
Variable chmod_ok : bool.

Local Abbreviation save := (save_key_to_keyfile default_mode chmod_ok).

(** The file system before the last [chmod] of [save_key_to_keyfile]: the
    temporary file was written, restricted and moved onto the key file,
    with the mode [m] it had. *)
Lemma save_key_to_keyfile_steps (key path : string) (fs : fsys) :
  exists (m : N) (ms : gmap string N),
    save key path fs
    = chmod_600 chmod_ok path
        (Fsys (delete (path ++ ".tmp")%string
                 (<[path := key]> (<[(path ++ ".tmp")%string := key]> (data fs))))
              (delete (path ++ ".tmp")%string (<[path := m]> ms)))
    /\ (chmod_ok = true -> m = 384%N)
    /\ forall p, p <> (path ++ ".tmp")%string -> ms !! p = modes fs !! p.
Proof.
  set (tmp := (path ++ ".tmp")%string).
  set (fs1 := chmod_600 chmod_ok tmp (write_file default_mode tmp key fs)).
  assert (Hd1 : data fs1 = <[tmp := key]> (data fs)).
  { unfold fs1, chmod_600, write_file. cbn [modes data].
    destruct chmod_ok; [|reflexivity].
    destruct (modes fs !! tmp); cbn [modes data].
    - destruct (modes fs !! tmp); reflexivity.
    - rewrite (lookup_insert_eq (modes fs)). reflexivity. }
  assert (Hm1 : exists m, modes fs1 !! tmp = Some m
                          /\ (chmod_ok = true -> m = 384%N)
                          /\ forall p, p <> tmp -> modes fs1 !! p = modes fs !! p).
  { unfold fs1, chmod_600, write_file. cbn [modes data].
    destruct chmod_ok.
    - exists 384%N.
      destruct (modes fs !! tmp) as [m0|] eqn:E; cbn [modes data].
      + rewrite E. cbn [modes data].
        split; [apply lookup_insert_eq|]. split; [reflexivity|].
        intros p Hp. apply lookup_insert_ne. congruence.
      + rewrite (lookup_insert_eq (modes fs)). cbn [modes data].
        split; [apply lookup_insert_eq|]. split; [reflexivity|].
        intros p Hp. rewrite !lookup_insert_ne by congruence. reflexivity.
    - destruct (modes fs !! tmp) as [m0|] eqn:E.
      + exists m0. split; [exact E|]. split; [discriminate|]. reflexivity.
      + exists default_mode.
        split; [apply lookup_insert_eq|]. split; [discriminate|].
        intros p Hp. apply lookup_insert_ne. congruence. }
  destruct Hm1 as (m & Hm & Hm600 & Hmo).
  exists m, (modes fs1). split; [|split; [exact Hm600 | exact Hmo]].
  change (save key path fs) with (chmod_600 chmod_ok path (replace tmp path fs1)).
  f_equal. unfold replace. rewrite Hd1 at 1.
  rewrite lookup_insert_eq, Hm, Hd1. reflexivity.
Qed.

(** The key is read back from the file it was saved to. *)
Lemma keyfile_read_back (key path : string) (fs : fsys) :
  load_key_from_keyfile path (save key path fs) = Some key.
Proof.
  destruct (save_key_to_keyfile_steps key path fs) as (m & ms & -> & _ & _).
  pose proof (append_tmp_differs path) as Hne.
  unfold load_key_from_keyfile, chmod_600.
  assert (H : forall f : fsys, data f !! path = Some key ->
              data (if chmod_ok
                    then match modes f !! path with
                         | Some _ => Fsys (data f) (<[path := 384%N]> (modes f))
                         | None => f
                         end
                    else f) !! path = Some key).
  { intros f Hf. destruct chmod_ok; [|exact Hf].
    destruct (modes f !! path); exact Hf. }
  apply H. cbn [data].
  rewrite lookup_delete_ne by congruence. apply lookup_insert_eq.
Qed.

(** X14. [save_key_to_keyfile] leaves the key in the key file, where
    [load_key_from_keyfile] reads it back, and no temporary file; the key
    file has mode 0o600 whenever [chmod] works; no other file is touched. *)
Theorem keyfile_written (key path : string) (fs : fsys) :
  load_key_from_keyfile path (save_key_to_keyfile default_mode chmod_ok
                                                  key path fs) = Some key
  /\ data (save key path fs) !! (path ++ ".tmp")%string = None
  /\ modes (save key path fs) !! (path ++ ".tmp")%string = None
  /\ (chmod_ok = true /\ modes (save key path fs) !! path = Some 384%N
      \/ chmod_ok = false)
  /\ forall p, p <> path -> p <> (path ++ ".tmp")%string ->
       data (save key path fs) !! p = data fs !! p
       /\ modes (save key path fs) !! p = modes fs !! p.
Proof.
  split; [apply keyfile_read_back|].
  destruct (save_key_to_keyfile_steps key path fs) as (m & ms & Hsave & _ & Hmo).
  pose proof (append_tmp_differs path) as Hne.
  set (tmp := (path ++ ".tmp")%string) in *.
  set (fs2 := Fsys (delete tmp (<[path := key]> (<[tmp := key]> (data fs))))
                   (delete tmp (<[path := m]> ms))) in *.
  assert (Hm2 : modes fs2 !! path = Some m).
  { unfold fs2. cbn [modes]. rewrite lookup_delete_ne by congruence.
    apply lookup_insert_eq. }
  assert (Hdata : data (save key path fs) = data fs2).
  { rewrite Hsave. unfold chmod_600. destruct chmod_ok; [|reflexivity].
    rewrite Hm2. reflexivity. }
  assert (Hmodes : forall p, p <> path ->
                     modes (save key path fs) !! p = modes fs2 !! p).
  { intros p Hp. rewrite Hsave. unfold chmod_600.
    destruct chmod_ok; [|reflexivity]. rewrite Hm2. cbn [modes].
    rewrite lookup_insert_ne by congruence. reflexivity. }
  split.
  { rewrite Hdata. unfold fs2. cbn [data]. apply lookup_delete_eq. }
  split.
  { rewrite Hmodes by exact Hne. unfold fs2. cbn [modes].
    apply lookup_delete_eq. }
  split.
  { destruct chmod_ok; [left | right; reflexivity].
    split; [reflexivity|]. rewrite Hsave. unfold chmod_600. rewrite Hm2.
    cbn [modes]. apply lookup_insert_eq. }
  intros p Hp Hpt. split.
  - rewrite Hdata. unfold fs2. cbn [data].
    rewrite lookup_delete_ne, !lookup_insert_ne by congruence. reflexivity.
  - rewrite Hmodes by exact Hp. unfold fs2. cbn [modes].
    rewrite lookup_delete_ne, lookup_insert_ne by congruence.
    apply Hmo. exact Hpt.
Qed.

End KeyFile.

Section MasterKey.

Variable b64encode : string -> string.
Variable b64decode : string -> option string.
Variable default_mode : N.
Variable chmod_ok : bool.

Local Abbreviation ensure :=
  (ensure_master_key b64encode b64decode default_mode chmod_ok).

Lemma if_key_Some (o : option string) (k : string) :
  if_key o = Some k <-> o = Some k /\ k <> "".
Proof.
  unfold if_key, nonempty. destruct o as [s|]; [|split; [discriminate | intros [H _]; discriminate]].
  destruct (String.eqb_spec s "") as [->|Hs]; simpl.
  - split; [discriminate|]. intros [H Hk]. injection H as <-. contradiction.
  - split.
    + intros H. injection H as <-. split; [reflexivity | exact Hs].
    + intros [H _]. exact H.
Qed.

(** X15. With a key store that answers, [ensure_master_key] never touches
    the files; and when the store holds a usable key, that key is returned
    and the store is left as it is. *)
Theorem keyring_up_leaves_disk (fresh : string)
    (store : gmap (string * string) string) (fs : fsys) :
  snd (snd (ensure fresh (Some store) fs)) = fs
  /\ match if_key (load_key_from_keyring b64decode (Some store)) with
     | Some key => ensure fresh (Some store) fs = (key, (Some store, fs))
     | None => True
     end.
Proof.
  unfold ensure_master_key.
  destruct (if_key (load_key_from_keyring b64decode (Some store))) as [k|].
  - split; reflexivity.
  - split; [|exact I].
    destruct (if_key (load_key_from_keyfile KEYFILE_PATH fs)); reflexivity.
Qed.

(** X16. Once [ensure_master_key] has run, a later run returns the same
    key, whatever key it would have generated: the key was found again or
    was stored, in the key store when it answers and in the key file
    otherwise.  The encoding must decode what it encoded and encode no
    non-empty key as the empty string, and the generated key must not be
    empty. *)
Theorem master_key_stable (fresh fresh' : string) (kr : keyring) (fs : fsys) :
  (forall k, b64decode (b64encode k) = Some k) ->
  (forall k, k <> "" -> b64encode k <> "") ->
  fresh <> "" ->
  fst (ensure fresh kr fs) <> ""
  /\ fst (ensure fresh' (fst (snd (ensure fresh kr fs)))
                        (snd (snd (ensure fresh kr fs))))
     = fst (ensure fresh kr fs).
Proof.
  intros Hdec Henc Hfresh.
  (* a key put in the store is found there by the next run *)
  assert (Hstored : forall k store fs0 f,
    k <> "" ->
    ensure f (Some (<[(APP_NAME, KEYRING_KEY_ID) := b64encode k]> store)) fs0
    = (k, (Some (<[(APP_NAME, KEYRING_KEY_ID) := b64encode k]> store), fs0))).
  { intros k store fs0 f Hk. unfold ensure_master_key, load_key_from_keyring.
    rewrite lookup_insert_eq. unfold nonempty at 1.
    destruct (String.eqb_spec (b64encode k) "") as [E|_];
      [exfalso; apply (Henc k Hk E)|].
    simpl. rewrite Hdec. simpl. unfold nonempty.
    destruct (String.eqb_spec k "") as [E|_]; [contradiction|]. reflexivity. }
  unfold ensure_master_key at 1 3 4 5.
  destruct (if_key (load_key_from_keyring b64decode kr)) as [k|] eqn:E1.
  - (* found in the key store *)
    simpl. unfold ensure_master_key. rewrite E1.
    apply if_key_Some in E1 as [_ Hk]. split; [exact Hk | reflexivity].
  - destruct (if_key (load_key_from_keyfile KEYFILE_PATH fs)) as [k|] eqn:E2.
    + (* found in the key file *)
      pose proof E2 as E2'. apply if_key_Some in E2' as [_ Hk].
      destruct kr as [store|]; simpl.
      * split; [exact Hk|]. rewrite (Hstored k store fs fresh' Hk). reflexivity.
      * split; [exact Hk|]. unfold ensure_master_key. simpl. rewrite E2.
        reflexivity.
    + (* generated *)
      destruct kr as [store|]; simpl.
      * split; [exact Hfresh|].
        rewrite (Hstored fresh store fs fresh' Hfresh). reflexivity.
      * split; [exact Hfresh|]. unfold ensure_master_key. simpl.
        rewrite (keyfile_read_back default_mode chmod_ok fresh KEYFILE_PATH fs). simpl. unfold nonempty.
        destruct (String.eqb_spec fresh "") as [E|_]; [contradiction|].
        reflexivity.
Qed.

End MasterKey.

Lemma master_key_stable_witness :
  "k1" <> ""
  /\ ensure_master_key Plain.b64encode Plain.b64decode 420 true
       "k1" None Plain.no_files
     = ("k1", (None, Fsys {[ KEYFILE_PATH := "k1" ]} {[ KEYFILE_PATH := 384%N ]}))
  /\ fst (ensure_master_key Plain.b64encode Plain.b64decode 420 true "k2"
            (fst (snd (ensure_master_key Plain.b64encode Plain.b64decode
                         420 true "k1" None Plain.no_files)))
            (snd (snd (ensure_master_key Plain.b64encode Plain.b64decode
                         420 true "k1" None Plain.no_files))))
     = "k1".
Proof.
  assert (Hfresh : "k1" <> "") by discriminate.
  destruct (master_key_stable Plain.b64encode Plain.b64decode 420 true
              "k1" "k2" None Plain.no_files
              (fun k => eq_refl) (fun k Hk => Hk) Hfresh) as [_ Hsame].
  split; [exact Hfresh|]. split; [|exact Hsame].
  vm_compute. reflexivity.
Defined.

(** ** The session across two runs *)

Lemma merge_snapshot_data (g g' : globals) :
  merge_snapshot g' (snapshot_data g) = (g, Returned tt).
Proof. destruct g. reflexivity. Qed.

(** Reading back what was encoded. *)
Lemma asset_of_json_encoded (a : asset) :
  asset_of_json (asset_to_json a) = Some a.
Proof. destruct a as [tk q b c r [s|]]; reflexivity. Qed.

Lemma preferences_read_encoded (d : dict string) :
  preferences_read (strdict_to_json d) = Returned (Some d).
Proof.
  unfold preferences_read, strdict_to_json. do 2 f_equal.
  rewrite map_map. simpl. rewrite <- (map_id d) at 2.
  apply map_ext. intros [k v]. reflexivity.
Qed.

(** Writing the status into the encoding of an asset gives the encoding
    of the asset with its status written. *)
Lemma write_status_encoded (a : asset) :
  write_status (asset_to_json a) (assign_status a)
  = asset_to_json (assign_status a).
Proof.
  unfold assign_status.
  destruct (negb (Qle_bool (percent_return a) 0));
    destruct a as [tk q b c r [s|]]; reflexivity.
Qed.

Lemma zip_write_status_encoded (pf : list asset) :
  zip_with write_status (map asset_to_json pf) (map assign_status pf)
  = map asset_to_json (map assign_status pf).
Proof.
  induction pf as [|a pf IH]; [reflexivity|].
  cbn [map zip_with]. rewrite IH, write_status_encoded. reflexivity.
Qed.

Section Restored.

Variable yf_history : string -> nat -> option (list Q).
Variable annualized_std : list Q -> float.

(** The statements after the three assignments, on the lists of a state
    with its two dicts of user data: they refresh the state. *)
Lemma finish_load_of_state (st : app_state) (mem : memory) :
  (2 <= length (userdata st))%nat ->
  finish_load yf_history annualized_std (with_lists mem (globals_of st))
  = Some (memory_of (refresh_portfolio_metrics yf_history annualized_std st),
          Returned tt).
Proof.
  intros Hlen. destruct st as [pf ts ud ms].
  destruct ud as [|u0 [|u1 ud]]; simpl in Hlen; [lia | lia | clear Hlen].
  pose proof (recalculate_portfolio_list yf_history annualized_std pf (Some u1))
    as Hl.
  assert (Href :
    refresh_portfolio_metrics yf_history annualized_std
      (AppState pf ts (u0 :: u1 :: ud) ms)
    = AppState (map assign_status pf) ts (u0 :: u1 :: ud)
               (Some (fst (recalculate_portfolio yf_history annualized_std
                             pf (Some u1))))).
  { unfold refresh_portfolio_metrics, Main.preferences.
    change (default [] (userdata (AppState pf ts (u0 :: u1 :: ud) ms) !! 1%nat))
      with u1.
    cbn [portfolio transactions userdata].
    destruct (recalculate_portfolio yf_history annualized_std pf (Some u1))
      as [mt pf'].
    simpl in Hl. subst pf'. reflexivity. }
  rewrite Href.
  unfold finish_load, refresh_loaded, memory_of, globals_of.
  cbn [with_lists with_creds with_preferences m_lists m_creds m_preferences
       m_metrics g_portfolio g_transactions g_userdata portfolio transactions
       userdata portfolio_metrics].
  change ((map strdict_to_json (u0 :: u1 :: ud)) !! 0%nat)
    with (Some (strdict_to_json u0)).
  change ((map strdict_to_json (u0 :: u1 :: ud)) !! 1%nat)
    with (Some (strdict_to_json u1)).
  change (default JNull (strdict_to_json <$> (u0 :: u1 :: ud) !! 0%nat))
    with (strdict_to_json u0).
  change (default JNull (strdict_to_json <$> (u0 :: u1 :: ud) !! 1%nat))
    with (strdict_to_json u1).
  cbn [with_lists with_creds with_preferences m_lists m_creds m_preferences
       m_metrics g_portfolio g_transactions g_userdata].
  change (map asset_to_json pf) with (asset_to_json <$> pf) at 1.
  rewrite (mapM_fmap_Some asset_of_json asset_to_json pf asset_of_json_encoded).
  rewrite preferences_read_encoded.
  destruct (recalculate_portfolio yf_history annualized_std pf (Some u1))
    as [mt pf'].
  simpl in Hl. subst pf'. cbn [fst].
  rewrite zip_write_status_encoded. reflexivity.
Qed.

End Restored.

(** X17. What [save_state_encrypted] wrote at exit, the load of the main
    block gives back at the next start, whatever was in memory and in the
    plain file: the three lists are those that were saved, [creds] and
    [preferences] are the two dicts of the saved user data, and the
    metrics are refreshed, which writes the status of every asset.  The
    saved user data must have its two dicts: without them the load raises
    [IndexError] once the lists are replaced, and goes on with the plain
    file.  The cipher must decrypt what it encrypted under the master key,
    the key must be well formed, and [json] must read the saved object
    back as written. *)
Theorem session_restored
    (fernet_key_ok : string -> bool)
    (fernet_encrypt : string -> nat -> string -> string)
    (fernet_decrypt : string -> string -> option string)
    (json_dumps : json -> string)
    (json_loads : string -> option json)
    (MASTER_KEY : string)
    (yf_history : string -> nat -> option (list Q))
    (annualized_std : list Q -> float)
    (st : app_state) (mem : memory) (n : nat) (fs : gmap string string)
    (plain : option json) :
  (forall n m, fernet_decrypt MASTER_KEY (fernet_encrypt MASTER_KEY n m) = Some m) ->
  fernet_key_ok MASTER_KEY = true ->
  json_loads (json_dumps (snapshot_data (globals_of st)))
    = Some (snapshot_data (globals_of st)) ->
  let saved :=
    save_state_encrypted fernet_key_ok fernet_encrypt json_dumps MASTER_KEY
                         (globals_of st) n fs in
  let load :=
    main_load fernet_key_ok fernet_decrypt json_loads MASTER_KEY
              yf_history annualized_std mem saved plain in
  ((2 <= length (userdata st))%nat ->
     load = Some (memory_of
                    (refresh_portfolio_metrics yf_history annualized_std st)))
  /\ (userdata st = [] ->
        load = fall_back yf_history annualized_std
                 (with_lists mem (globals_of st)) plain)
  /\ (forall u, userdata st = [u] ->
        load = fall_back yf_history annualized_std
                 (with_creds (with_lists mem (globals_of st))
                             (strdict_to_json u))
                 plain).
Proof.
  intros Hround Hk Hx saved load.
  assert (Hload : load
                  = match finish_load yf_history annualized_std
                            (with_lists mem (globals_of st)) with
                    | None => None
                    | Some (m', Returned _) => Some m'
                    | Some (m', Raised _) =>
                        fall_back yf_history annualized_std m' plain
                    end).
  { subst load saved.
    unfold main_load, save_state_encrypted, Passencrypt.save_state,
      Passencrypt.load_state, encrypt_state, decrypt_state.
    rewrite Hk. cbn [fst]. rewrite lookup_insert_eq, Hround, Hx.
    unfold startup_load.
    change (truthy (snapshot_data (globals_of st))) with true. cbn iota.
    cbn [with_lists m_lists].
    rewrite merge_snapshot_data. reflexivity. }
  split; [|split].
  - intros Hlen. rewrite Hload, (finish_load_of_state _ _ _ _ Hlen).
    reflexivity.
  - intros Hu. rewrite Hload. unfold finish_load.
    cbn [with_lists m_lists globals_of g_userdata]. rewrite Hu. reflexivity.
  - intros u Hu. rewrite Hload. unfold finish_load.
    cbn [with_lists with_creds m_lists globals_of g_userdata]. rewrite Hu.
    reflexivity.
Qed.

Lemma session_restored_witness :
  Toy.key_ok "k" = true
  /\ Toy.loads (Toy.dumps (snapshot_data (globals_of Scenario.st0)))
     = Some (snapshot_data (globals_of Scenario.st0))
  /\ (2 <= length (userdata Scenario.st0))%nat
  /\ main_load Toy.key_ok Toy.decrypt Toy.loads "k"
       Offline.yf_history Offline.annualized_std
       (Memory (Globals [] [] []) JNull JNull None)
       (save_state_encrypted Toy.key_ok Toy.encrypt Toy.dumps "k"
                             (globals_of Scenario.st0) 0 ∅)
       None
     = Some (memory_of (refresh_portfolio_metrics Offline.yf_history
                          Offline.annualized_std Scenario.st0)).
Proof.
  assert (Hk : Toy.key_ok "k" = true) by reflexivity.
  assert (Hx : Toy.loads (Toy.dumps (snapshot_data (globals_of Scenario.st0)))
               = Some (snapshot_data (globals_of Scenario.st0))) by reflexivity.
  assert (Hlen : (2 <= length (userdata Scenario.st0))%nat) by (simpl; lia).
  split; [exact Hk|]. split; [exact Hx|]. split; [exact Hlen|].
  exact (proj1 (session_restored Toy.key_ok Toy.encrypt Toy.decrypt Toy.dumps
                  Toy.loads "k" Offline.yf_history Offline.annualized_std
                  Scenario.st0 (Memory (Globals [] [] []) JNull JNull None)
                  0%nat ∅ None
                  (fun n m => toy_decrypt_encrypt "k" n m Hk) Hk Hx) Hlen).
Defined.

(** X18. When there is no state file, or reading it fails in any way (a
    wrong key, a damaged file, an object [json] cannot read), the load of
    the main block behaves as if there were none: it does what
    [load_state()] does with the plain file, and without a plain file it
    leaves the memory as it is. *)
Theorem unreadable_state_is_ignored
    (fernet_key_ok : string -> bool)
    (fernet_decrypt : string -> string -> option string)
    (json_loads : string -> option json)
    (MASTER_KEY : string)
    (yf_history : string -> nat -> option (list Q))
    (annualized_std : list Q -> float)
    (mem : memory) (fs : gmap string string) (plain : option json) :
  (fs !! ENCRYPTED_STATE = None
   \/ exists e, decrypt_state fernet_key_ok fernet_decrypt json_loads
                  MASTER_KEY ENCRYPTED_STATE fs = Raised e) ->
  main_load fernet_key_ok fernet_decrypt json_loads MASTER_KEY
            yf_history annualized_std mem fs plain
    = fst <$> Session.load_state yf_history annualized_std mem plain
  /\ main_load fernet_key_ok fernet_decrypt json_loads MASTER_KEY
               yf_history annualized_std mem fs None
     = Some mem.
Proof.
  intros H.
  assert (Hnull : Passencrypt.load_state fernet_key_ok fernet_decrypt json_loads
                    MASTER_KEY ENCRYPTED_STATE fs = JNull).
  { unfold Passencrypt.load_state. destruct H as [H | [e H]].
    - unfold decrypt_state. rewrite H. reflexivity.
    - rewrite H. reflexivity. }
  unfold main_load. rewrite Hnull.
  split; rewrite startup_load_not_truthy by reflexivity; reflexivity.
Qed.

Lemma unreadable_state_is_ignored_witness :
  (exists e, decrypt_state Toy.key_ok Toy.decrypt Toy.loads "k" ENCRYPTED_STATE
               Scenario.tampered = Raised e)
  /\ main_load Toy.key_ok Toy.decrypt Toy.loads "k"
       Offline.yf_history Offline.annualized_std
       (memory_of Scenario.st0) Scenario.tampered None
     = Some (memory_of Scenario.st0).
Proof.
  assert (H : exists e, decrypt_state Toy.key_ok Toy.decrypt Toy.loads "k"
                          ENCRYPTED_STATE Scenario.tampered = Raised e)
    by (exists InvalidToken; reflexivity).
  split; [exact H|].
  apply (unreadable_state_is_ignored Toy.key_ok Toy.decrypt Toy.loads "k"
           Offline.yf_history Offline.annualized_std
           (memory_of Scenario.st0) Scenario.tampered None (or_intror H)).
Defined.



(** ** The risk written at creation and the portfolio claim *)

Lemma update_portfolio_risk_optimal (pf : list asset) (t : transaction) :
  Forall (fun a => risk a = "OPTIMAL") pf ->
  Forall (fun a => risk a = "OPTIMAL") (fst (update_portfolio pf t)).
Proof.
  intros Hall.
  destruct (find_asset (tx_ticker t) pf) as [[i a]|] eqn:Hf.
  - assert (Ha : risk a = "OPTIMAL").
    { apply find_asset_Some in Hf as (Hi & _ & _).
      rewrite Forall_lookup in Hall. apply (Hall i a Hi). }
    destruct (String.eqb_spec (tx_type t) "buy") as [Hb|Hb].
    + rewrite (update_portfolio_buy pf t i a Hf Hb).
      destruct (truediv _ _); simpl; [|exact Hall].
      apply Forall_insert; [exact Hall | exact Ha].
    + destruct (String.eqb_spec (tx_type t) "sell") as [Hs|Hs].
      * rewrite (update_portfolio_sell pf t i a Hf Hs).
        destruct (Qle_bool _ _); simpl.
        -- apply Forall_delete. exact Hall.
        -- apply Forall_insert; [exact Hall | exact Ha].
      * rewrite (update_portfolio_other pf t i a Hf Hb Hs). exact Hall.
  - rewrite (update_portfolio_new pf t Hf). simpl.
    apply Forall_app. split; [exact Hall|].
    apply Forall_cons. split; [reflexivity | apply Forall_nil_2].
Qed.

Lemma count_venture_optimal (pf : list asset) (c : nat * nat) (v : transaction) :
  Forall (fun a => risk a = "OPTIMAL") pf -> count_venture pf c v = c.
Proof.
  intros Hall. unfold count_venture.
  destruct (find_asset (tx_ticker v) pf) as [[i a]|] eqn:Hf; [|reflexivity].
  apply find_asset_Some in Hf as (Hi & _ & _).
  rewrite Forall_lookup in Hall. rewrite (Hall i a Hi). reflexivity.
Qed.

Lemma claim_of_optimal (pf : list asset) (vs : list transaction) :
  Forall (fun a => risk a = "OPTIMAL") pf ->
  get_portfolio_claim vs pf = "balanced".
Proof.
  intros Hall. unfold get_portfolio_claim.
  assert (H : forall c, fold_left (count_venture pf) vs c = c).
  { induction vs as [|v vs IH]; intros c; [reflexivity|].
    simpl. rewrite (count_venture_optimal pf c v Hall). apply IH. }
  rewrite H. reflexivity.
Qed.

(** X20. No transaction ever changes the risk of an asset, and a new asset
    gets ["OPTIMAL"].  So in a session whose assets all have the risk
    ["OPTIMAL"], such as one that starts without assets, they still all
    have it after any transactions, and the portfolio claim, also the one
    of the monthly summary, is ["balanced"] whatever the ventures. *)
Theorem built_portfolio_is_balanced
    (yf_history : string -> nat -> option (list Q))
    (annualized_std : list Q -> float)
    (st : app_state) (ts vs : list transaction) :
  Forall (fun a => risk a = "OPTIMAL") (portfolio st) ->
  let st' := record_all yf_history annualized_std st ts in
  Forall (fun a => risk a = "OPTIMAL") (portfolio st')
  /\ get_portfolio_claim vs (portfolio st') = "balanced"
  /\ match monthly_recap st' with
     | Some r => claim r = "balanced"
     | None => True
     end.
Proof.
  intros Hall st'.
  assert (Hall' : Forall (fun a => risk a = "OPTIMAL") (portfolio st')).
  { subst st'. revert st Hall. induction ts as [|t ts IH]; intros st Hall;
      [exact Hall|].
    apply IH.
    pose proof (update_portfolio_risk_optimal _ t Hall) as Hup.
    destruct (update_portfolio (portfolio st) t) as [pf [[]|e]] eqn:E;
      simpl in Hup.
    - rewrite (proj2 (record_returned yf_history annualized_std _ _ _ E)).
      apply Forall_fmap. eapply Forall_impl; [exact Hup|].
      intros a Ha. simpl. rewrite assign_status_risk. exact Ha.
    - rewrite (proj2 (record_raised yf_history annualized_std _ _ _ _ E)).
      exact Hup. }
  split; [exact Hall'|]. split; [apply claim_of_optimal, Hall'|].
  unfold monthly_recap.
  destruct (transactions st'); [exact I|].
  destruct (map tx_date _); [exact I|].
  simpl. apply claim_of_optimal, Hall'.
Qed.

Lemma built_portfolio_is_balanced_witness :
  Forall (fun a => risk a = "OPTIMAL") (portfolio Scenario3.st_empty)
  /\ get_portfolio_claim [Scenario2.buy_msft]
       (portfolio (record_all Offline.yf_history Offline.annualized_std
                     Scenario3.st_empty
                     [Scenario2.buy_msft; Scenario2.buy_msft_again]))
     = "balanced".
Proof.
  assert (H : Forall (fun a => risk a = "OPTIMAL") (portfolio Scenario3.st_empty))
    by apply Forall_nil_2.
  split; [exact H|].
  apply (built_portfolio_is_balanced Offline.yf_history Offline.annualized_std
           Scenario3.st_empty [Scenario2.buy_msft; Scenario2.buy_msft_again]
           [Scenario2.buy_msft] H).
Defined.

(** ** Refreshing the prices *)

(** An asset before and after a refresh of its price. *)
Lemma update_current_price_frame
    (yf_last_close : string -> option (option Q)) (round2 : Q -> Q) (a : asset) :
  let a' := update_current_price yf_last_close round2 a in
  ticker a' = ticker a /\ quantity a' = quantity a
  /\ buy_price a' = buy_price a /\ risk a' = risk a /\ status a' = status a
  /\ match yf_last_close (normalize_ticker (ticker a)) with
     | Some (Some price) =>
         if Qle_bool price 0 then a' = a
         else current_price a' = round2 price
     | _ => a' = a
     end.
Proof.
  unfold update_current_price, get_live_price.
  destruct (yf_last_close (normalize_ticker (ticker a))) as [[price|]|];
    simpl; try (repeat split; reflexivity).
  destruct (Qle_bool price 0); simpl; repeat split; reflexivity.
Qed.

(** X21. [update_all_current_prices] keeps the assets and their order and
    writes nothing but current prices: an asset whose quote fails, is
    empty or is not positive stays exactly as it was, whatever happens to
    the others, and an asset with a positive quote gets that quote
    rounded.  When the gateway is down the portfolio is unchanged. *)
Theorem prices_refreshed_one_by_one
    (yf_last_close : string -> option (option Q)) (round2 : Q -> Q)
    (portfolio_list : list asset) :
  Forall2
    (fun a a' =>
       ticker a' = ticker a /\ quantity a' = quantity a
       /\ buy_price a' = buy_price a /\ risk a' = risk a /\ status a' = status a
       /\ match yf_last_close (normalize_ticker (ticker a)) with
          | Some (Some price) =>
              if Qle_bool price 0 then a' = a
              else current_price a' = round2 price
          | _ => a' = a
          end)
    portfolio_list
    (update_all_current_prices yf_last_close round2 portfolio_list)
  /\ ((forall t, yf_last_close t = None) ->
      update_all_current_prices yf_last_close round2 portfolio_list
      = portfolio_list).
Proof.
  split.
  - induction portfolio_list as [|a l IH]; [apply Forall2_nil_2|].
    apply Forall2_cons. split; [apply update_current_price_frame | exact IH].
  - intros Hdown. unfold update_all_current_prices.
    induction portfolio_list as [|a l IH]; [reflexivity|].
    simpl. rewrite IH. unfold update_current_price, get_live_price.
    rewrite Hdown. reflexivity.
Qed.

Lemma prices_refreshed_one_by_one_witness :
  update_all_current_prices Scenario3.yf_last_close Scenario3.round2 portfolio0
  = [ Asset "AAPL" 10 150 (Scenario3.round2 171.237) "high" None;
      Asset "TSLA" 3 700 650 "high" None;
      Asset "BTC" 0.02 30000 45000 "high" None ]
  /\ Scenario3.round2 171.237 == 171.23
  /\ update_all_current_prices (fun _ => None) Scenario3.round2 portfolio0
     = portfolio0.
Proof.
  split; [reflexivity|]. split; [reflexivity|].
  apply (prices_refreshed_one_by_one (fun _ => None) Scenario3.round2 portfolio0).
  reflexivity.
Defined.

(** ** The monthly summary *)

Lemma ascii_compare_lt_trans (a b c : ascii) :
  Ascii.compare a b = Lt -> Ascii.compare b c = Lt -> Ascii.compare a c = Lt.
Proof.
  unfold Ascii.compare. rewrite !N.compare_lt_iff. apply N.lt_trans.
Qed.

Lemma string_compare_cons (a b : ascii) (s t : string) :
  String.compare (String a s) (String b t)
  = match Ascii.compare a b with
    | Eq => String.compare s t
    | r => r
    end.
Proof. reflexivity. Qed.

Lemma string_leb_trans (s t u : string) :
  String.leb s t = true -> String.leb t u = true -> String.leb s u = true.
Proof.
  unfold String.leb. revert t u.
  induction s as [|a s IH]; intros t u Hst Htu.
  - destruct u; reflexivity.
  - destruct t as [|b t]; [discriminate Hst|].
    destruct u as [|c u]; [discriminate Htu|].
    rewrite string_compare_cons in *.
    destruct (Ascii.compare a b) eqn:Eab; [| |discriminate Hst].
    + apply Ascii.compare_eq_iff in Eab. subst b.
      destruct (Ascii.compare a c) eqn:Eac; [|reflexivity|discriminate Htu].
      apply (IH t u Hst Htu).
    + destruct (Ascii.compare b c) eqn:Ebc; [| |discriminate Htu].
      * apply Ascii.compare_eq_iff in Ebc. subst c. rewrite Eab. reflexivity.
      * rewrite (ascii_compare_lt_trans _ _ _ Eab Ebc). reflexivity.
Qed.

Lemma string_leb_refl (s : string) : String.leb s s = true.
Proof. destruct (String.leb_total s s); assumption. Qed.

Lemma string_ltb_false_leb (s t : string) :
  String.ltb s t = false -> String.leb t s = true.
Proof.
  unfold String.ltb, String.leb. rewrite (String.compare_antisym s t).
  destruct (String.compare t s); simpl; [reflexivity | reflexivity | discriminate].
Qed.

Lemma string_ltb_true_leb (s t : string) :
  String.ltb s t = true -> String.leb s t = true.
Proof.
  unfold String.ltb, String.leb.
  destruct (String.compare s t); [discriminate | reflexivity | discriminate].
Qed.

(** [str_max] returns an element of the list that no element exceeds. *)
Lemma str_max_spec (d : string) (ds : list string) :
  str_max d ds ∈ d :: ds
  /\ forall x, x ∈ d :: ds -> String.leb x (str_max d ds) = true.
Proof.
  unfold str_max. revert d. induction ds as [|y ds IH]; intros d.
  - simpl. split; [left|].
    intros x Hx. apply list_elem_of_singleton in Hx. subst x.
    apply string_leb_refl.
  - simpl. destruct (IH (if String.ltb d y then y else d)) as [Hin Hmax].
    split.
    + apply elem_of_cons in Hin as [Hin|Hin].
      * rewrite Hin. destruct (String.ltb d y); [right; left | left].
      * right. right. exact Hin.
    + intros x Hx.
      assert (Hm : String.leb (if String.ltb d y then y else d)
                     (fold_left (fun m x => if String.ltb m x then x else m) ds
                                (if String.ltb d y then y else d)) = true)
        by (apply Hmax; left).
      apply elem_of_cons in Hx as [->|Hx];
        [|apply elem_of_cons in Hx as [->|Hx]].
      * eapply string_leb_trans; [|exact Hm].
        destruct (String.ltb d y) eqn:E;
          [apply string_ltb_true_leb, E | apply string_leb_refl].
      * eapply string_leb_trans; [|exact Hm].
        destruct (String.ltb d y) eqn:E;
          [apply string_leb_refl | apply string_ltb_false_leb, E].
      * apply Hmax. right. exact Hx.
Qed.

(** X22. [monthly_recap] prints no summary exactly when the log has no
    buy.  Otherwise the month of the summary is the one of a buy whose date
    no other buy's date exceeds, and the ventures are the buys of that
    month, in the order of the log: there is at least one, and each is a
    logged buy whose date starts with that month. *)
Theorem monthly_recap_ventures (st : app_state) :
  (monthly_recap st = None
   <-> Forall (fun t => tx_type t <> "buy") (transactions st))
  /\ match monthly_recap st with
     | None => True
     | Some r =>
         (exists t, t ∈ transactions st /\ tx_type t = "buy"
                    /\ latest_month r = String.substring 0 7 (tx_date t)
                    /\ forall t', t' ∈ transactions st -> tx_type t' = "buy" ->
                                  String.leb (tx_date t') (tx_date t) = true)
         /\ ventures r <> []
         /\ ventures r
            = List.filter
                (fun t => String.eqb (tx_type t) "buy"
                          && String.eqb (String.substring 0 7 (tx_date t))
                                        (latest_month r))
                (transactions st)
     end.
Proof.
  unfold monthly_recap.
  remember (List.filter (fun t => String.eqb (tx_type t) "buy")
                        (transactions st)) as buys eqn:Hdef.
  assert (Hbuys : forall t, t ∈ buys <-> t ∈ transactions st /\ tx_type t = "buy").
  { intros t. rewrite Hdef, !list_elem_of_In, List.filter_In.
    rewrite String.eqb_eq. reflexivity. }
  assert (Hnone : buys = [] <->
                  Forall (fun t => tx_type t <> "buy") (transactions st)).
  { rewrite Forall_forall. clear Hdef. split.
    - intros E t Ht Hb.
      assert (Hin : t ∈ buys) by (apply Hbuys; split; assumption).
      rewrite E in Hin. inversion Hin.
    - intros H. destruct buys as [|t l]; [reflexivity|].
      destruct (proj1 (Hbuys t) ltac:(left)) as [Ht Hb].
      exfalso. apply (H t Ht Hb). }
  destruct (transactions st) as [|t0 l0] eqn:Et.
  { split; [|exact I]. split; [intros _; apply Forall_nil_2 | reflexivity]. }
  rewrite <- Et in *. clear Et t0 l0.
  destruct buys as [|b bs].
  { simpl. split; [|exact I]. split; [intros _; apply Hnone; reflexivity
                                     | reflexivity]. }
  simpl map. cbv iota. split.
  { split; [discriminate|]. intros H. apply Hnone in H. discriminate H. }
  cbn [latest_month ventures].
  destruct (str_max_spec (tx_date b) (map tx_date bs)) as [Hin Hmax].
  change (tx_date b :: map tx_date bs) with (map tx_date (b :: bs)) in Hin, Hmax.
  apply list_elem_of_fmap in Hin as (t & Hd & Ht).
  assert (Htb : t ∈ transactions st /\ tx_type t = "buy")
    by (apply Hbuys; exact Ht).
  split; [|split].
  - exists t. split; [apply Htb|]. split; [apply Htb|].
    split; [rewrite Hd; reflexivity|].
    intros t' Ht' Hb'. rewrite <- Hd. apply Hmax.
    apply list_elem_of_fmap. exists t'. split; [reflexivity|].
    apply Hbuys. split; assumption.
  - intros Hnil.
    assert (Hv : t ∈ List.filter
                   (fun t => String.eqb (String.substring 0 7 (tx_date t))
                               (String.substring 0 7
                                  (str_max (tx_date b) (map tx_date bs))))
                   (b :: bs)).
    { apply list_elem_of_In, List.filter_In. split.
      - apply list_elem_of_In. exact Ht.
      - rewrite Hd. apply String.eqb_refl. }
    rewrite Hnil in Hv. inversion Hv.
  - rewrite Hdef.
    generalize (String.substring 0 7 (str_max (tx_date b) (map tx_date bs))).
    intros mth. clear. generalize (transactions st). intros l.
    induction l as [|x l IH]; [reflexivity|].
    simpl. destruct (String.eqb (tx_type x) "buy"); simpl;
      [destruct (String.eqb _ mth); rewrite IH; reflexivity | exact IH].
Qed.

(** ** The password check *)

(** A character is in at most one of the four classes, so the [elif] chain
    of the loop sets each flag on its own. *)
Lemma scan_sets_each_flag (u l d s : bool) (c : ascii) :
  scan (u, l, d, s) c
  = (u || is_upper c, l || is_lower c, d || is_digit c,
     s || char_in c special_chars).
Proof.
  assert (H : forall c,
    match is_upper c, is_lower c, is_digit c, char_in c special_chars with
    | true, false, false, false | false, true, false, false
    | false, false, true, false | false, false, false, _ => True
    | _, _, _, _ => False
    end).
  { clear. intros [[] [] [] [] [] [] [] []]; exact I. }
  specialize (H c). unfold scan.
  destruct (is_upper c), (is_lower c), (is_digit c),
    (char_in c special_chars), u, l, d, s; try contradiction; reflexivity.
Qed.

Lemma scan_flags (cs : list ascii) (u l d s : bool) :
  fold_left scan cs (u, l, d, s)
  = (u || existsb is_upper cs, l || existsb is_lower cs,
     d || existsb is_digit cs,
     s || existsb (fun c => char_in c special_chars) cs).
Proof.
  revert u l d s. induction cs as [|c cs IH]; intros u l d s.
  - simpl. rewrite !orb_false_r. reflexivity.
  - change (fold_left scan (c :: cs) (u, l, d, s))
      with (fold_left scan cs (scan (u, l, d, s) c)).
    rewrite scan_sets_each_flag, IH. cbn [existsb].
    rewrite !orb_assoc. reflexivity.
Qed.

Lemma string_get_Some_lt (s : string) (i : nat) (a : ascii) :
  String.get i s = Some a -> (i < String.length s)%nat.
Proof.
  revert i. induction s as [|c s IH]; intros i H; [discriminate|].
  destruct i as [|i]; simpl in *; [lia|].
  apply IH in H. lia.
Qed.

Lemma has_repetition_spec (s : string) :
  has_repetition s = true <-> three_in_a_row s.
Proof.
  unfold has_repetition, three_in_a_row. rewrite existsb_exists. split.
  - intros (i & _ & H). unfold same3 in H.
    destruct (String.get i s) as [a|] eqn:E0; [|discriminate].
    destruct (String.get (i + 1) s) as [b|] eqn:E1; [|discriminate].
    destruct (String.get (i + 2) s) as [c|] eqn:E2; [|discriminate].
    apply andb_prop in H as [H1 H2].
    apply Ascii.eqb_eq in H1, H2. subst b c. exists i, a. auto.
  - intros (i & a & H0 & H1 & H2). exists i. split.
    + apply in_seq. apply string_get_Some_lt in H2. lia.
    + unfold same3. rewrite H0, H1, H2, Ascii.eqb_refl. reflexivity.
Qed.

Lemma prefix_cons (c d : ascii) (w s : string) :
  String.prefix (String c w) (String d s)
  = if ascii_dec c d then String.prefix w s else false.
Proof. reflexivity. Qed.

Lemma prefix_spec (w s : string) :
  String.prefix w s = true <-> exists post, s = (w ++ post)%string.
Proof.
  revert s. induction w as [|c w IH]; intros s.
  - split; [intros _; exists s; reflexivity | destruct s; reflexivity].
  - destruct s as [|d s].
    + split; [discriminate | intros [post H]; discriminate].
    + rewrite prefix_cons. destruct (ascii_dec c d) as [->|Hne].
      * rewrite IH. split; intros [post H]; exists post.
        -- simpl. rewrite H. reflexivity.
        -- simpl in H. injection H as H. exact H.
      * split; [discriminate|]. intros [post H]. simpl in H.
        injection H as H _. congruence.
Qed.

Lemma contains_spec (w s : string) : contains w s = true <-> occurs w s.
Proof.
  unfold occurs. induction s as [|d s IH].
  - change (contains w "") with (String.prefix w "" || false).
    rewrite orb_false_r, prefix_spec. split.
    + intros [post H]. exists "", post. exact H.
    + intros (pre & post & H). destruct pre; [exists post; exact H|].
      discriminate H.
  - change (contains w (String d s))
      with (String.prefix w (String d s) || contains w s).
    rewrite orb_true_iff, prefix_spec, IH. split.
    + intros [[post H] | (pre & post & H)].
      * exists "", post. exact H.
      * exists (String d pre), post. rewrite H. reflexivity.
    + intros (pre & post & H). destruct pre as [|e pre].
      * left. exists post. exact H.
      * right. injection H as _ H. exists pre, post. exact H.
Qed.

(** X23. [check_password] accepts exactly the ASCII passwords of at least
    eight characters that show at least three of the four classes (upper case,
    lower case, digit, special character), have no character three times
    in a row, and contain none of the weak patterns in any letter case. *)
Theorem check_password_accepts (password : string) :
  check_password password = true
  <-> (8 <= String.length password)%nat
      /\ (3 <= classes_shown password)%nat
      /\ ~ three_in_a_row password
      /\ Forall (fun w => ~ occurs w (lower password)) weak_patterns.
Proof.
  unfold check_password.
  assert (Hfl : checks_passed (fold_left scan (list_ascii_of_string password)
                                         (false, false, false, false))
                = classes_shown password).
  { rewrite scan_flags. reflexivity. }
  rewrite Hfl.
  assert (Hweak : has_weak password = false
                  <-> Forall (fun w => ~ occurs w (lower password))
                             weak_patterns).
  { unfold has_weak. rewrite Forall_forall. split.
    - intros H w Hw Hocc. apply contains_spec in Hocc.
      assert (Hex : existsb (fun p => contains p (lower password))
                            weak_patterns = true).
      { apply existsb_exists. exists w. split; [|exact Hocc].
        apply list_elem_of_In. exact Hw. }
      congruence.
    - intros H.
      destruct (existsb _ weak_patterns) eqn:E; [|reflexivity].
      apply existsb_exists in E as (w & Hw & Hc).
      exfalso. apply (H w); [apply list_elem_of_In, Hw|].
      apply contains_spec. exact Hc. }
  assert (Hrep : has_repetition password = false <-> ~ three_in_a_row password).
  { rewrite <- has_repetition_spec.
    destruct (has_repetition password); split; congruence. }
  assert (Hff : forall b : bool, (if b then false else false) = false)
    by (intros []; reflexivity).
  destruct (Nat.ltb_spec (String.length password) 8) as [Hlen|Hlen].
  { split; [discriminate | intros [H _]; lia]. }
  destruct (Nat.leb_spec 3 (classes_shown password)) as [Hc|Hc]; simpl.
  - destruct (has_repetition password) eqn:Er; simpl.
    + split; [rewrite Hff; discriminate|].
      intros (_ & _ & Hn & _). apply Hrep in Hn. discriminate.
    + destruct (has_weak password) eqn:Ew; simpl.
      * split; [rewrite Hff; discriminate|].
        intros (_ & _ & _ & Hn). apply Hweak in Hn. discriminate.
      * split; [|reflexivity]. intros _.
        split; [exact Hlen|]. split; [exact Hc|].
        split; [apply Hrep; reflexivity | apply Hweak; reflexivity].
  - split; [rewrite Hff; discriminate|].
    intros (_ & H & _). lia.
Qed.
